(** * Electron "maintain a minimum battery capacity" application

    A shallow embedding of [firmware/electron-maintain-capacity.cpp] and the
    properties of its back-off calculator, of the battery qualification
    routine and of the serial console.

    Conventions.
    - [uint32_t] values are integers in [Z] with the wrap-around modulo
      [2^32] written out ([to_uint32]).
    - [float] values are IEEE-754 binary32 numbers, represented by the
      standard library's [spec_float] in canonical form; [<] is [SFltb].
    - The device (fuel gauge, cloud connection, serial port, power
      management) is a record of readings that a routine consults and a
      list of the calls it makes to the platform, in program order.
    - [System.sleep(SLEEP_MODE_SOFTPOWEROFF, ...)] powers the processor
      down; execution resumes through the start-up sequence, never after the
      call.  A routine that reaches it ends with outcome [Suspended]. *)

From Stdlib Require Import ZArith List String Ascii Bool Lia.
From Stdlib Require Import Floats.SpecFloat.
From ExtLib Require Import Structures.Monad.
Import ListNotations.
Import MonadNotation.

Local Open Scope Z_scope.
Local Open Scope monad_scope.

(** ** Machine integers *)

Module UInt32.

Definition modulus : Z := 2 ^ 32.
Definition UINT32_MAX : Z := modulus - 1.

(** Conversion of an integer result to [uint32_t]. *)
Definition to_uint32 (z : Z) : Z := z mod modulus.

(** The values a [uint32_t] object can hold. *)
Definition in_range (z : Z) : Prop := 0 <= z < modulus.

End UInt32.
Import UInt32.

(** ** Single-precision numbers *)

Module Float32.

Definition prec : Z := 24.
Definition emax : Z := 128.

(** A [spec_float] is a binary32 value when it is canonical for the
    format. *)
Definition is_binary32 (f : spec_float) : bool := valid_binary prec emax f.

(** The binary32 number closest to the integer [z], which is [z] itself
    for the small constants of this program. *)
Definition of_Z (z : Z) : spec_float := binary_normalize prec emax z 0 false.

End Float32.

(** ** Back-off calculator *)

(** [uint32_t exponent = min(7u, attempt_num/3);] *)
Definition exponent (attempt_num : Z) : Z := Z.min 7 (attempt_num / 3).

(** [uint32_t sleep_backoff(uint32_t attempt_num)].  The product
    [1000*(1<<exponent)] is computed on [int] and converted to [uint32_t] by
    the [return]. *)
Definition sleep_backoff (attempt_num : Z) : Z :=
  if attempt_num =? 0 then 0
  else to_uint32 (1000 * Z.shiftl 1 (exponent attempt_num)).

(** The initialiser of [sleep_time] in [qualify_battery_and_hibernate], as a
    function of the value of [++low_batt_sleep_attempts]:
    [144 * sleep_backoff(n) / 100] on [uint32_t]. *)
Definition sleep_time (n : Z) : Z := to_uint32 (144 * sleep_backoff n) / 100.

(** The back-off calculator as the specification words it: a unit-agnostic
    base value [2^min(7, n/3)], and [0] for the sentinel [0]; the controller
    scales it by [scalingFactor * 1000 / 100]. *)
Definition sleepBackoffSeconds (attemptNumber : Z) : Z :=
  if attemptNumber =? 0 then 0 else 2 ^ Z.min 7 (attemptNumber / 3).

Definition scalingFactor : Z := 144.

(** ** The device *)

(** Text handed to the platform.  [String(x)] conversions are kept symbolic:
    the digits they print are the framework's business. *)
Inductive piece : Type :=
| Lit (s : string)            (* a string literal *)
| OfFloat (f : spec_float)    (* [String(float)] *)
| OfUInt (n : Z)              (* [String(uint32_t)] *)
| OfInt (n : Z).              (* [%d] *)

Definition text : Type := list piece.

Inductive SleepMode : Type := SLEEP_MODE_SOFTPOWEROFF.

(** Calls a routine makes to the platform. *)
Inductive Call : Type :=
| QuickStart                              (* [FuelGauge().quickStart()] *)
| Publish (eventname data : text)         (* [Particle.publish] *)
| Println (line : text)                   (* [Serial1.println], [printlnf] *)
| Delay (ms : Z)                          (* [delay] *)
| Sleep (mode : SleepMode) (seconds : Z). (* [System.sleep] *)

(** What the peripherals answer while one routine runs. *)
Record Platform : Type := {
  soc_reading : spec_float;     (* [FuelGauge().getSoC()] *)
  vcell_reading : spec_float;   (* [FuelGauge().getVCell()] *)
  version_reading : Z;          (* [FuelGauge().getVersion()] *)
  cloud_connected : bool        (* [Particle.connected()] *)
}.

(** The program's variables, and the receive buffer of [Serial1]. *)
Record World : Type := {
  last_battery_capacity : spec_float;   (* retained *)
  low_batt_sleep_attempts : Z;          (* retained *)
  lastBlink : Z;
  MY_SERIAL : list ascii
}.

Definition set_low_batt_sleep_attempts (n : Z) (w : World) : World :=
  {| last_battery_capacity := last_battery_capacity w;
     low_batt_sleep_attempts := n;
     lastBlink := lastBlink w;
     MY_SERIAL := MY_SERIAL w |}.

Definition set_MY_SERIAL (rx : list ascii) (w : World) : World :=
  {| last_battery_capacity := last_battery_capacity w;
     low_batt_sleep_attempts := low_batt_sleep_attempts w;
     lastBlink := lastBlink w;
     MY_SERIAL := rx |}.

(** The initial values of the variables. *)
Definition power_on : World :=
  {| last_battery_capacity := S754_zero false;
     low_batt_sleep_attempts := 0;
     lastBlink := 0;
     MY_SERIAL := [] |}.

(** ** Routines *)

Inductive Outcome (A : Type) : Type :=
| Returned (a : A)
| Suspended.
Arguments Returned {A} a.
Arguments Suspended {A}.

(** A routine reads the peripherals, updates the variables, makes calls and
    either returns or suspends the device. *)
Definition Run (A : Type) : Type :=
  Platform -> World -> Outcome A * World * list Call.

Definition Run_ret {A : Type} (a : A) : Run A :=
  fun _ w => (Returned a, w, []).

Definition Run_bind {A B : Type} (m : Run A) (k : A -> Run B) : Run B :=
  fun p w =>
    match m p w with
    | (Returned a, w1, c1) =>
        match k a p w1 with
        | (o, w2, c2) => (o, w2, c1 ++ c2)
        end
    | (Suspended, w1, c1) => (Suspended, w1, c1)
    end.

#[global] Instance Monad_Run : Monad Run :=
  {| ret := @Run_ret; bind := @Run_bind |}.

Definition outcome {A : Type} (r : Outcome A * World * list Call) : Outcome A :=
  fst (fst r).
Definition world {A : Type} (r : Outcome A * World * list Call) : World :=
  snd (fst r).
Definition calls {A : Type} (r : Outcome A * World * list Call) : list Call :=
  snd r.

(** *** Platform primitives *)

Definition call (c : Call) : Run unit := fun _ w => (Returned tt, w, [c]).

Definition FuelGauge_getSoC : Run spec_float :=
  fun p w => (Returned (soc_reading p), w, []).
Definition FuelGauge_getVCell : Run spec_float :=
  fun p w => (Returned (vcell_reading p), w, []).
Definition FuelGauge_getVersion : Run Z :=
  fun p w => (Returned (version_reading p), w, []).
Definition FuelGauge_quickStart : Run unit := call QuickStart.
Definition Particle_connected : Run bool :=
  fun p w => (Returned (cloud_connected p), w, []).
Definition Particle_publish (eventname data : text) : Run unit :=
  call (Publish eventname data).
Definition MY_SERIAL_println (line : text) : Run unit := call (Println line).
Definition delay (ms : Z) : Run unit := call (Delay ms).

(** [System.sleep(SLEEP_MODE_SOFTPOWEROFF, seconds)] does not return. *)
Definition System_sleep (mode : SleepMode) (seconds : Z) : Run unit :=
  fun _ w => (Suspended, w, [Sleep mode seconds]).

(** [MY_SERIAL.available()] *)
Definition MY_SERIAL_available : Run Z :=
  fun _ w => (Returned (Z.of_nat (List.length (MY_SERIAL w))), w, []).

(** [MY_SERIAL.read()]: the next byte, or [-1] when there is none. *)
Definition MY_SERIAL_read : Run Z :=
  fun _ w =>
    match MY_SERIAL w with
    | [] => (Returned (-1), w, [])
    | c :: rest => (Returned (Z.of_N (N_of_ascii c)), set_MY_SERIAL rest w, [])
    end.

(** Conversion of the [int] that [read()] returns to [char]. *)
Definition to_char (z : Z) : ascii := ascii_of_N (Z.to_N (z mod 256)).

(** [++low_batt_sleep_attempts] *)
Definition pre_increment_low_batt_sleep_attempts : Run Z :=
  fun _ w =>
    let n := to_uint32 (low_batt_sleep_attempts w + 1) in
    (Returned n, set_low_batt_sleep_attempts n w, []).

(** [low_batt_sleep_attempts = n] *)
Definition assign_low_batt_sleep_attempts (n : Z) : Run unit :=
  fun _ w => (Returned tt, set_low_batt_sleep_attempts n w, []).

(** *** The application *)

(** [const float LOW_BATT_CAPACITY = 20.0;], that is [5 * 2^21 * 2^-19]. *)
Definition LOW_BATT_CAPACITY : spec_float := S754_finite false 10485760 (-19).

(** [bool battery_lower_than(float capacity)] *)
Definition battery_lower_than (capacity : spec_float) : Run bool :=
  soc <- FuelGauge_getSoC ;;
  ret (if SFltb soc capacity then true else false).

(** [void reset_battery_capacity()] *)
Definition reset_battery_capacity : Run unit :=
  FuelGauge_quickStart ;;
  delay 200.

(** [String(FuelGauge().getSoC()) + "(\%)," + String(FuelGauge().getVCell()) + "(V)"];
    the compiler reads the escape [\%] as the character [%]. *)
Definition battery_stats : Run text :=
  soc <- FuelGauge_getSoC ;;
  vcell <- FuelGauge_getVCell ;;
  ret [OfFloat soc; Lit "(%),"; OfFloat vcell; Lit "(V)"].

(** [void publish_pmic_stats_event(String eventname)], with
    [SERIAL_DEBUGGING] defined. *)
Definition publish_pmic_stats_event (eventname : text) : Run unit :=
  stats <- battery_stats ;;
  Particle_publish eventname stats ;;
  let stats := eventname ++ [Lit " "] ++ stats in
  MY_SERIAL_println stats ;;
  delay 100.

(** [void publish_pmic_stats(void)] *)
Definition publish_pmic_stats : Run unit :=
  publish_pmic_stats_event [Lit "UPDATE"].

(** [void qualify_battery_and_hibernate()], with [SERIAL_DEBUGGING]
    defined. *)
Definition qualify_battery_and_hibernate : Run unit :=
  low <- battery_lower_than LOW_BATT_CAPACITY ;;
  (if low : bool then
     n <- pre_increment_low_batt_sleep_attempts ;;
     let sleep_time := sleep_time n in
     connected <- Particle_connected ;;
     (if connected : bool then
        publish_pmic_stats_event [Lit "SLEEP "; OfUInt sleep_time] ;;
        delay 5000  (* should not need this after 0.6.1 is released *)
      else ret tt) ;;
     stats <- battery_stats ;;
     let stats := [Lit "SLEEP "; OfUInt sleep_time; Lit " "] ++ stats in
     MY_SERIAL_println stats ;;
     delay 100 ;;
     System_sleep SLEEP_MODE_SOFTPOWEROFF sleep_time
   else ret tt) ;;
  assign_low_batt_sleep_attempts 0. (* reset if we don't hibernate *)

Definition CRLF : string := String "013" (String "010" EmptyString).

(** [void showHelp()] *)
Definition showHelp : Run unit :=
  MY_SERIAL_println
    [Lit (CRLF ++ "Press a key to run a command:"
       ++ CRLF ++ "[q] run Fuel Gauge [q]uickStart and read SoC and BattV"
       ++ CRLF ++ "[b] run qualify_[b]attery_and_hibernate"
       ++ CRLF ++ "[v] get Fuel Gauge hardware [v]ersion"
       ++ CRLF ++ "[h] show this [h]elp menu" ++ CRLF)%string].

(** [while (MY_SERIAL.available()) MY_SERIAL.read();], one [read] for each
    byte that is pending when the loop starts. *)
Fixpoint drain (pending : list ascii) : Run unit :=
  match pending with
  | [] => ret tt
  | _ :: rest => MY_SERIAL_read ;; drain rest
  end.

Definition flush_input : Run unit := fun p w => drain (MY_SERIAL w) p w.

(** [void processSerial()] *)
Definition processSerial : Run unit :=
  available <- MY_SERIAL_available ;;
  if 0 <? available then
    r <- MY_SERIAL_read ;;
    let c := to_char r in
    (if Ascii.eqb c "q" then
       reset_battery_capacity ;;
       stats <- battery_stats ;;
       MY_SERIAL_println (Lit "Quickstart and Battery stats: " :: stats)
     else if Ascii.eqb c "Q" then
       stats <- battery_stats ;;
       MY_SERIAL_println (Lit "Battery stats: " :: stats)
     else if Ascii.eqb c "b" then
       MY_SERIAL_println [Lit "Running qualify_battery_and_hibernate()"] ;;
       qualify_battery_and_hibernate
     else if Ascii.eqb c "v" then
       version <- FuelGauge_getVersion ;;
       MY_SERIAL_println [Lit "Fuel Gauge hardware version: "; OfInt version]
     else if Ascii.eqb c "h" then
       showHelp
     else
       MY_SERIAL_println [Lit "Bad command! Press [h] for help menu."]) ;;
    flush_input (* Flush the input buffer *)
  else ret tt.

(** *** Runs of the battery monitor *)

(** The calls a routine made that are of a given kind. *)
Definition is_publish (c : Call) : bool :=
  match c with Publish _ _ => true | _ => false end.

Definition is_sleep (c : Call) : bool :=
  match c with Sleep _ _ => true | _ => false end.

(** The durations of the sleeps a routine asked for. *)
Fixpoint sleep_requests (cs : list Call) : list Z :=
  match cs with
  | [] => []
  | Sleep _ seconds :: rest => seconds :: sleep_requests rest
  | _ :: rest => sleep_requests rest
  end.

(** One qualification per element of [ps], each on the variables the
    previous one left: the timer calls the routine again after a pass that
    returned, and the start-up sequence calls it after a sleep, the retained
    variables kept. *)
Definition qualifications (ps : list Platform) (w : World) : World :=
  fold_left (fun w p => world (qualify_battery_and_hibernate p w)) ps w.

(** Some readings. *)
Definition soc_15 : spec_float := S754_finite false 15728640 (-20).
Definition soc_25 : spec_float := S754_finite false 13107200 (-19).
Definition vcell_3_7 : spec_float := S754_finite false 15518925 (-22).

Definition reading (soc : spec_float) (connected : bool) : Platform :=
  {| soc_reading := soc; vcell_reading := vcell_3_7;
     version_reading := 3; cloud_connected := connected |}.

Definition set_cloud_connected (b : bool) (p : Platform) : Platform :=
  {| soc_reading := soc_reading p; vcell_reading := vcell_reading p;
     version_reading := version_reading p; cloud_connected := b |}.

(** The variables with the attempt counter at [UINT32_MAX]. *)
Definition attempts_at_max : World :=
  set_low_batt_sleep_attempts UINT32_MAX power_on.

(** The variables after one sleep. *)
Definition after_one_sleep : World := set_low_batt_sleep_attempts 1 power_on.

(** Five low readings, a recovery to 25.0 and a new drop to 15.0. *)
Definition five_low : list Platform :=
  [reading soc_15 true; reading soc_15 true; reading soc_15 false;
   reading soc_15 true; reading soc_15 false].

(** The variables after five sleeps. *)
Definition after_five_sleeps : World := set_low_batt_sleep_attempts 5 power_on.

(** The console with [x] typed, then [b]. *)
Definition typed_x_b : World := set_MY_SERIAL ["x"%char; "b"%char] after_five_sleeps.

(** *** Calls of a qualification that sleeps *)

(** The line [qualify_battery_and_hibernate] prints before it sleeps. *)
Definition sleep_line (p : Platform) (seconds : Z) : text :=
  [Lit "SLEEP "; OfUInt seconds; Lit " ";
   OfFloat (soc_reading p); Lit "(%),"; OfFloat (vcell_reading p); Lit "(V)"].

(** The calls of the connected branch. *)
Definition sleep_notice (p : Platform) (seconds : Z) : list Call :=
  [Publish [Lit "SLEEP "; OfUInt seconds]
     [OfFloat (soc_reading p); Lit "(%),"; OfFloat (vcell_reading p); Lit "(V)"];
   Println (sleep_line p seconds); Delay 100; Delay 5000].

(** ** The rest of the sketch *)

(** A reading that [battery_lower_than(LOW_BATT_CAPACITY)] finds low. *)
Definition is_low (p : Platform) : bool :=
  SFltb (soc_reading p) LOW_BATT_CAPACITY.

(** The number of low readings at the end of [ps], back to the last reading
    that is not low. *)
Fixpoint leading_lows (ps : list Platform) : nat :=
  match ps with
  | [] => O
  | p :: rest => if is_low p then S (leading_lows rest) else O
  end.

Definition low_streak (ps : list Platform) : nat := leading_lows (rev ps).

Inductive Pin : Type := D7.
Inductive PinMode : Type := OUTPUT.

(** The two software timers, [Timer batt_monitor(24*60*1000, ...)] and
    [Timer publish_data(1*60*1000, ...)]. *)
Inductive Timer : Type := batt_monitor | publish_data.

Definition timer_period (t : Timer) : Z :=
  match t with
  | batt_monitor => 24 * 60 * 1000
  | publish_data => 1 * 60 * 1000
  end.

Definition timer_callback (t : Timer) : Run unit :=
  match t with
  | batt_monitor => qualify_battery_and_hibernate
  | publish_data => publish_pmic_stats
  end.

(** The handlers registered with [Particle.function], by name. *)
Inductive CloudFunction : Type := get_soc | get_battv.

(** Calls of the whole sketch: those of the battery monitor and the ones
    [setup] and [toggleD7] add. *)
Inductive BoardCall : Type :=
| Monitor (c : Call)
| PinModeCall (pin : Pin) (mode : PinMode)            (* [pinMode] *)
| DigitalWrite (pin : Pin) (value : Z)                (* [digitalWrite] *)
| SerialBegin (baud : Z)                              (* [MY_SERIAL.begin] *)
| ParticleFunction (name : string) (f : CloudFunction) (* [Particle.function] *)
| ParticleConnect                                     (* [Particle.connect] *)
| WaitForConnected (timeout : Z)      (* [waitFor(Particle.connected, ...)] *)
| TimerStart (t : Timer).                             (* [Timer::start] *)

(** The peripherals of a routine of the sketch: those of the battery
    monitor, the answer of the [k]-th call of [millis()] in the routine and
    the level [digitalRead(D7)] returns. *)
Record Board : Type := {
  peripherals : Platform;
  millis_reading : nat -> Z;
  D7_reading : Z
}.

Definition set_peripherals (q : Platform) (b : Board) : Board :=
  {| peripherals := q;
     millis_reading := millis_reading b;
     D7_reading := D7_reading b |}.

Definition set_lastBlink (t : Z) (w : World) : World :=
  {| last_battery_capacity := last_battery_capacity w;
     low_batt_sleep_attempts := low_batt_sleep_attempts w;
     lastBlink := t;
     MY_SERIAL := MY_SERIAL w |}.

Definition Sketch (A : Type) : Type :=
  Board -> World -> Outcome A * World * list BoardCall.

Definition Sketch_ret {A : Type} (a : A) : Sketch A :=
  fun _ w => (Returned a, w, []).

Definition Sketch_bind {A B : Type} (m : Sketch A) (k : A -> Sketch B) : Sketch B :=
  fun b w =>
    match m b w with
    | (Returned a, w1, c1) =>
        match k a b w1 with
        | (o, w2, c2) => (o, w2, c1 ++ c2)
        end
    | (Suspended, w1, c1) => (Suspended, w1, c1)
    end.

#[global] Instance Monad_Sketch : Monad Sketch :=
  {| ret := @Sketch_ret; bind := @Sketch_bind |}.

Definition sketch_outcome {A : Type}
    (r : Outcome A * World * list BoardCall) : Outcome A := fst (fst r).
Definition sketch_world {A : Type}
    (r : Outcome A * World * list BoardCall) : World := snd (fst r).
Definition sketch_calls {A : Type}
    (r : Outcome A * World * list BoardCall) : list BoardCall := snd r.

(** A routine of the battery monitor, run from the sketch. *)
Definition monitor {A : Type} (m : Run A) : Sketch A :=
  fun b w =>
    match m (peripherals b) w with
    | (o, w1, cs) => (o, w1, map Monitor cs)
    end.

(** The rest of a routine, run on the readings [q]. *)
Definition with_peripherals {A : Type} (q : Platform) (m : Sketch A) : Sketch A :=
  fun b w => m (set_peripherals q b) w.

Definition board_call (c : BoardCall) : Sketch unit :=
  fun _ w => (Returned tt, w, [c]).

(** The [k]-th [millis()] of the routine. *)
Definition millis (k : nat) : Sketch Z :=
  fun b w => (Returned (millis_reading b k), w, []).

Definition digitalRead (pin : Pin) : Sketch Z :=
  fun b w => (Returned (D7_reading b), w, []).

Definition digitalWrite (pin : Pin) (value : Z) : Sketch unit :=
  board_call (DigitalWrite pin value).

Definition read_lastBlink : Sketch Z :=
  fun _ w => (Returned (lastBlink w), w, []).

Definition assign_lastBlink (t : Z) : Sketch unit :=
  fun _ w => (Returned tt, set_lastBlink t w, []).

(** [!x] on an [int], as the [uint8_t] that [digitalWrite] takes. *)
Definition logical_not (x : Z) : Z := if x =? 0 then 1 else 0.

(** [void toggleD7()]; [millis()-lastBlink > 100] is an unsigned
    comparison of a [uint32_t] difference. *)
Definition toggleD7 : Sketch unit :=
  now <- millis 0 ;;
  last <- read_lastBlink ;;
  if 100 <? to_uint32 (now - last) then
    now <- millis 1 ;;
    assign_lastBlink now ;;
    level <- digitalRead D7 ;;
    digitalWrite D7 (logical_not level)
  else ret tt.

(** [void setup()], with [SERIAL_DEBUGGING] defined.  The readings taken
    after [waitFor(Particle.connected, 120000)] are those of [online]. *)
Definition setup (online : Platform) : Sketch unit :=
  board_call (PinModeCall D7 OUTPUT) ;;
  board_call (SerialBegin 9600) ;;
  board_call (ParticleFunction "soc" get_soc) ;;
  board_call (ParticleFunction "battv" get_battv) ;;
  (* reset SoC with battery in a resting state,
     before cellular is enabled which loads the battery down *)
  monitor reset_battery_capacity ;;
  monitor qualify_battery_and_hibernate ;;
  board_call ParticleConnect ;;
  board_call (WaitForConnected 120000) ;;
  with_peripherals online
    (monitor (publish_pmic_stats_event [Lit "WAKE"]) ;;
     board_call (TimerStart batt_monitor) ;;
     board_call (TimerStart publish_data) ;;
     monitor showHelp).

(** [void loop()] *)
Definition loop : Sketch unit :=
  toggleD7 ;;
  monitor processSerial.

(** *** Observations on the calls of the sketch *)

Definition is_connect (c : BoardCall) : bool :=
  match c with ParticleConnect => true | _ => false end.

Definition is_timer_start (c : BoardCall) : bool :=
  match c with TimerStart _ => true | _ => false end.

Definition is_board_publish (c : BoardCall) : bool :=
  match c with Monitor (Publish _ _) => true | _ => false end.

Definition is_board_sleep (c : BoardCall) : bool :=
  match c with Monitor (Sleep _ _) => true | _ => false end.

Definition is_digital_write (c : BoardCall) : bool :=
  match c with DigitalWrite _ _ => true | _ => false end.



(** Some boards. *)
Definition board (p : Platform) (t0 t1 : Z) (level : Z) : Board :=
  {| peripherals := p;
     millis_reading := fun k => match k with O => t0 | _ => t1 end;
     D7_reading := level |}.

(** Two low readings, a recovery and three low readings. *)
Definition dip_recover_dip : list Platform :=
  [reading soc_15 true; reading soc_15 false; reading soc_25 true;
   reading soc_15 false; reading soc_15 false; reading soc_15 true].

(** The battery statistics of a reading, as [battery_stats] builds them. *)
Definition stats_text (p : Platform) : text :=
  [OfFloat (soc_reading p); Lit "(%),"; OfFloat (vcell_reading p); Lit "(V)"].

(** The notice the console prints for the command [b]. *)
Definition running_notice : Call :=
  Println [Lit "Running qualify_battery_and_hibernate()"].

(** Consoles with some input typed. *)
Definition typed_Q_b_x : World :=
  set_MY_SERIAL ["Q"%char; "b"%char; "x"%char] after_five_sleeps.
Definition typed_q : World := set_MY_SERIAL ["q"%char] after_five_sleeps.
Definition typed_b_x : World :=
  set_MY_SERIAL ["b"%char; "x"%char] after_five_sleeps.

(** The variables with the last blink 50 ms before [millis()] rolls over. *)
Definition blinked_before_rollover : World := set_lastBlink 4294967246 power_on.

(** * Properties *)

(** ** Machine integers *)

Lemma to_uint32_range z : in_range (to_uint32 z).
Proof. unfold in_range, to_uint32, modulus. apply Z.mod_pos_bound. lia. Qed.

Lemma to_uint32_small z : in_range z -> to_uint32 z = z.
Proof. unfold in_range, to_uint32. intros H. now apply Z.mod_small. Qed.

Lemma to_uint32_succ_max : to_uint32 (UINT32_MAX + 1) = 0.
Proof. reflexivity. Qed.

(** *** Arithmetic of the calculator *)

Lemma exponent_bounds n : 0 <= n -> 0 <= exponent n <= 7.
Proof.
  intros Hn. unfold exponent.
  assert (0 <= n / 3) by (apply Z.div_pos; lia). lia.
Qed.

Lemma exponent_mono m n : 0 <= m <= n -> exponent m <= exponent n.
Proof.
  intros H. unfold exponent.
  assert (m / 3 <= n / 3) by (apply Z.div_le_mono; lia). lia.
Qed.

Lemma exponent_saturates n : 21 <= n -> exponent n = 7.
Proof.
  intros H. unfold exponent.
  assert (7 <= n / 3) by (apply Z.div_le_lower_bound; lia). lia.
Qed.

Lemma shiftl_one e : 0 <= e -> Z.shiftl 1 e = 2 ^ e.
Proof. intros He. rewrite Z.shiftl_mul_pow2 by assumption. lia. Qed.

Lemma pow2_exponent_bounds e : 0 <= e <= 7 -> 1 <= 2 ^ e <= 128.
Proof.
  intros He. split.
  - apply (Z.pow_le_mono_r 2 0 e); lia.
  - change 128 with (2 ^ 7). apply Z.pow_le_mono_r; lia.
Qed.

Lemma sleep_backoff_pos n :
  1 <= n -> sleep_backoff n = 1000 * 2 ^ exponent n.
Proof.
  intros Hn. unfold sleep_backoff.
  destruct (Z.eqb_spec n 0) as [->|_]; [lia|].
  pose proof (exponent_bounds n ltac:(lia)) as He.
  rewrite shiftl_one by lia.
  pose proof (pow2_exponent_bounds _ He).
  apply to_uint32_small. unfold in_range, modulus. lia.
Qed.

Lemma sleep_backoff_zero : sleep_backoff 0 = 0.
Proof. reflexivity. Qed.

Lemma sleep_backoff_bounds n : 1 <= n -> 1000 <= sleep_backoff n <= 128000.
Proof.
  intros Hn. rewrite sleep_backoff_pos by assumption.
  pose proof (pow2_exponent_bounds _ (exponent_bounds n ltac:(lia))). lia.
Qed.

Lemma sleep_time_pos n : 1 <= n -> sleep_time n = 1440 * 2 ^ exponent n.
Proof.
  intros Hn. unfold sleep_time.
  pose proof (sleep_backoff_bounds n Hn) as Hb.
  rewrite to_uint32_small by (unfold in_range, modulus; lia).
  rewrite sleep_backoff_pos by assumption.
  replace (144 * (1000 * 2 ^ exponent n)) with ((1440 * 2 ^ exponent n) * 100) by lia.
  apply Z.div_mul. lia.
Qed.

Lemma sleep_time_zero : sleep_time 0 = 0.
Proof. reflexivity. Qed.

(** ** Comparison of readings *)

Lemma SFcompare_swap (a b : spec_float) :
  SFcompare b a = option_map CompOpp (SFcompare a b).
Proof.
  destruct a as [sa|sa| |sa ma ea], b as [sb|sb| |sb mb eb]; simpl;
    try reflexivity;
    try (destruct sa; reflexivity);
    try (destruct sb; reflexivity);
    try (destruct sa, sb; reflexivity).
  assert (Hm : Pos.compare_cont Eq mb ma = CompOpp (Pos.compare_cont Eq ma mb))
    by (symmetry; exact (Pos.compare_cont_antisym ma mb Eq)).
  destruct sa, sb; simpl; try reflexivity;
    rewrite (Z.compare_antisym ea eb), Hm;
    destruct (ea ?= eb); simpl; try reflexivity;
    destruct (Pos.compare_cont Eq ma mb); reflexivity.
Qed.

(** A reading at or above a capacity is not lower than it. *)
Lemma SFleb_not_SFltb (a b : spec_float) :
  SFleb a b = true -> SFltb b a = false.
Proof.
  unfold SFleb, SFltb. rewrite (SFcompare_swap a b).
  destruct (SFcompare a b) as [[ | | ]|]; simpl; congruence.
Qed.

(** A reading above a capacity is not lower than it. *)
Lemma SFltb_asym (a b : spec_float) :
  SFltb a b = true -> SFltb b a = false.
Proof.
  unfold SFltb. rewrite (SFcompare_swap a b).
  destruct (SFcompare a b) as [[ | | ]|]; simpl; congruence.
Qed.

Lemma LOW_BATT_CAPACITY_is_20 :
  LOW_BATT_CAPACITY = Float32.of_Z 20 /\
  Float32.is_binary32 LOW_BATT_CAPACITY = true.
Proof. split; reflexivity. Qed.

Lemma sample_readings_are_binary32 :
  soc_15 = Float32.of_Z 15 /\ soc_25 = Float32.of_Z 25 /\
  Float32.is_binary32 soc_15 = true /\
  Float32.is_binary32 soc_25 = true /\
  Float32.is_binary32 vcell_3_7 = true.
Proof. repeat split. Qed.

(** ** One qualification, case by case *)

Lemma qualify_low (p : Platform) (w : World) :
  SFltb (soc_reading p) LOW_BATT_CAPACITY = true ->
  let n := to_uint32 (low_batt_sleep_attempts w + 1) in
  qualify_battery_and_hibernate p w =
    (Suspended, set_low_batt_sleep_attempts n w,
     (if cloud_connected p then sleep_notice p (sleep_time n) else [])
       ++ [Println (sleep_line p (sleep_time n)); Delay 100;
           Sleep SLEEP_MODE_SOFTPOWEROFF (sleep_time n)]).
Proof.
  intros Hlow n.
  unfold qualify_battery_and_hibernate, battery_lower_than; cbn.
  unfold Run_bind, FuelGauge_getSoC; cbn.
  rewrite Hlow; cbn.
  destruct (cloud_connected p); reflexivity.
Qed.

Lemma qualify_not_low (p : Platform) (w : World) :
  SFltb (soc_reading p) LOW_BATT_CAPACITY = false ->
  qualify_battery_and_hibernate p w =
    (Returned tt, set_low_batt_sleep_attempts 0 w, []).
Proof.
  intros Hlow.
  unfold qualify_battery_and_hibernate, battery_lower_than; cbn.
  unfold Run_bind, FuelGauge_getSoC; cbn.
  rewrite Hlow; reflexivity.
Qed.

Lemma sleep_requests_app (a b : list Call) :
  sleep_requests (a ++ b) = sleep_requests a ++ sleep_requests b.
Proof.
  induction a as [|c a IH]; simpl; [reflexivity|].
  destruct c; simpl; rewrite ?IH; reflexivity.
Qed.

Lemma sleep_requests_qualify_low (p : Platform) (w : World) :
  SFltb (soc_reading p) LOW_BATT_CAPACITY = true ->
  sleep_requests (calls (qualify_battery_and_hibernate p w)) =
    [sleep_time (to_uint32 (low_batt_sleep_attempts w + 1))].
Proof.
  intros Hlow. rewrite (qualify_low p w Hlow). unfold calls; simpl snd.
  rewrite sleep_requests_app. destruct (cloud_connected p); reflexivity.
Qed.

Lemma attempts_qualify_low (p : Platform) (w : World) :
  SFltb (soc_reading p) LOW_BATT_CAPACITY = true ->
  low_batt_sleep_attempts (world (qualify_battery_and_hibernate p w)) =
    to_uint32 (low_batt_sleep_attempts w + 1).
Proof. intros Hlow. rewrite (qualify_low p w Hlow). reflexivity. Qed.

Lemma attempts_qualify_not_low (p : Platform) (w : World) :
  SFltb (soc_reading p) LOW_BATT_CAPACITY = false ->
  low_batt_sleep_attempts (world (qualify_battery_and_hibernate p w)) = 0.
Proof. intros Hlow. rewrite (qualify_not_low p w Hlow). reflexivity. Qed.

Lemma outcome_qualify_low (p : Platform) (w : World) :
  SFltb (soc_reading p) LOW_BATT_CAPACITY = true ->
  outcome (qualify_battery_and_hibernate p w) = Suspended.
Proof. intros Hlow. rewrite (qualify_low p w Hlow). reflexivity. Qed.

Lemma increment_below_max (z : Z) :
  in_range z -> z < UINT32_MAX -> to_uint32 (z + 1) = z + 1.
Proof.
  intros Hz Hmax. apply to_uint32_small.
  unfold in_range, UINT32_MAX in *. lia.
Qed.

Lemma qualifications_snoc (ps : list Platform) (p : Platform) (w : World) :
  qualifications (ps ++ [p]) w =
    world (qualify_battery_and_hibernate p (qualifications ps w)).
Proof. unfold qualifications. rewrite fold_left_app. reflexivity. Qed.

Lemma qualifications_in_range (ps : list Platform) (w : World) :
  in_range (low_batt_sleep_attempts w) ->
  in_range (low_batt_sleep_attempts (qualifications ps w)).
Proof.
  revert w. induction ps as [|p ps IH]; intros w Hw; [exact Hw|].
  change (qualifications (p :: ps) w)
    with (qualifications ps (world (qualify_battery_and_hibernate p w))).
  apply IH.
  destruct (SFltb (soc_reading p) LOW_BATT_CAPACITY) eqn:Hlow.
  - rewrite (qualify_low p w Hlow). apply to_uint32_range.
  - rewrite (qualify_not_low p w Hlow). unfold in_range, modulus; simpl. lia.
Qed.

(** ** The back-off calculator *)

(** C1, as stated, fails on the first attempt: [sleep_backoff(1)] is [1000],
    the milliseconds of the one-second tier, and not [2^min(7, 1/3) = 1]. *)
Lemma sleep_backoff_first_attempt_is_1000 :
  sleep_backoff 1 = 1000 /\
  2 ^ Z.min 7 (1 / 3) = 1 /\
  sleep_backoff 1 <> 2 ^ Z.min 7 (1 / 3).
Proof. repeat split. discriminate. Qed.

(** C1, amended: for every non-negative [n], [sleep_backoff n] is [0] when
    [n = 0] and [1000 * 2^min(7, n/3)] when [n >= 1]; the exponents of
    attempts 1 to 21 are 0,0,1,1,1,2,2,2,...,6,6,6,7 and the exponent stays
    at 7, the result at [128000], for every attempt from 21 on. *)
Theorem sleep_backoff_tiers (n : Z) :
  0 <= n ->
  (n = 0 -> sleep_backoff n = 0) /\
  (1 <= n -> sleep_backoff n = 1000 * 2 ^ Z.min 7 (n / 3)) /\
  map exponent (map Z.of_nat (seq 1 21)) =
    [0; 0; 1; 1; 1; 2; 2; 2; 3; 3; 3; 4; 4; 4; 5; 5; 5; 6; 6; 6; 7] /\
  (21 <= n -> exponent n = 7 /\ sleep_backoff n = 128000).
Proof.
  intros Hn. split; [|split; [|split]].
  - intros ->. reflexivity.
  - intros H1. exact (sleep_backoff_pos n H1).
  - reflexivity.
  - intros H21. split; [now apply exponent_saturates|].
    rewrite sleep_backoff_pos by lia.
    rewrite exponent_saturates by assumption. reflexivity.
Qed.

(** C1, amended, at attempt 22. *)
Lemma sleep_backoff_tiers_witness :
  0 <= 22 /\
  ((22 = 0 -> sleep_backoff 22 = 0) /\
   (1 <= 22 -> sleep_backoff 22 = 1000 * 2 ^ Z.min 7 (22 / 3)) /\
   map exponent (map Z.of_nat (seq 1 21)) =
     [0; 0; 1; 1; 1; 2; 2; 2; 3; 3; 3; 4; 4; 4; 5; 5; 5; 6; 6; 6; 7] /\
   (21 <= 22 -> exponent 22 = 7 /\ sleep_backoff 22 = 128000)).
Proof. split; [lia | apply (sleep_backoff_tiers 22); lia]. Defined.

(** C5, as stated, fails: [sleep_backoff(21)] is [128000], above [128]. *)
Lemma sleep_backoff_exceeds_128 :
  sleep_backoff 21 = 128000 /\ ~ sleep_backoff 21 <= 128.
Proof. split; [reflexivity | intros H; vm_compute in H; apply H; reflexivity]. Qed.

(** C5, amended: [sleep_backoff] is monotonically non-decreasing in its
    argument and its result is bounded above by [128000 = 1000 * 128], a
    bound it reaches. *)
Theorem sleep_backoff_monotone_bounded (m n : Z) :
  0 <= m -> m <= n ->
  sleep_backoff m <= sleep_backoff n /\
  sleep_backoff n <= 1000 * 128 /\
  sleep_backoff 21 = 1000 * 128.
Proof.
  intros Hm Hmn.
  assert (Hb : forall k, 0 <= k -> 0 <= sleep_backoff k <= 1000 * 128).
  { intros k Hk. destruct (Z.eq_dec k 0) as [->|Hk0].
    - rewrite sleep_backoff_zero. lia.
    - pose proof (sleep_backoff_bounds k ltac:(lia)). lia. }
  split; [|split; [apply Hb; lia | reflexivity]].
  destruct (Z.eq_dec m 0) as [->|Hm0].
  - rewrite sleep_backoff_zero. apply Hb. lia.
  - rewrite !sleep_backoff_pos by lia.
    apply Z.mul_le_mono_nonneg_l; [lia|].
    apply Z.pow_le_mono_r; [lia|]. apply exponent_mono. lia.
Qed.

(** C5, amended, between attempts 5 and 9. *)
Lemma sleep_backoff_monotone_bounded_witness :
  0 <= 5 /\ 5 <= 9 /\
  (sleep_backoff 5 <= sleep_backoff 9 /\
   sleep_backoff 9 <= 1000 * 128 /\
   sleep_backoff 21 = 1000 * 128).
Proof.
  split; [lia | split; [lia | apply (sleep_backoff_monotone_bounded 5 9); lia]].
Defined.

(** C9: for every [uint32_t] attempt number [n], the product
    [144 * sleep_backoff(n)] is at most [144 * 128000 = 18432000], below
    [2^32], so the unsigned multiplication does not wrap; it is a multiple of
    [100], so the division by [100] loses nothing; and for [n >= 1] the
    quotient is [1440 * 2^min(7, n/3)]. *)
Theorem sleep_time_exact (n : Z) :
  in_range n ->
  144 * sleep_backoff n <= 144 * 128000 /\
  144 * 128000 = 18432000 /\
  18432000 < 2 ^ 32 /\
  to_uint32 (144 * sleep_backoff n) = 144 * sleep_backoff n /\
  (144 * sleep_backoff n) mod 100 = 0 /\
  sleep_time n * 100 = 144 * sleep_backoff n /\
  (1 <= n -> sleep_time n = 1440 * 2 ^ Z.min 7 (n / 3)).
Proof.
  intros [Hn _].
  destruct (Z.eq_dec n 0) as [->|Hn0].
  - rewrite sleep_backoff_zero, sleep_time_zero.
    split; [|split; [|split; [|split; [|split; [|split]]]]];
      try reflexivity; lia.
  - assert (H1 : 1 <= n) by lia.
    pose proof (sleep_backoff_bounds n H1) as Hb.
    pose proof (sleep_time_pos n H1) as Ht.
    pose proof (sleep_backoff_pos n H1) as Hs.
    assert (Hw : to_uint32 (144 * sleep_backoff n) = 144 * sleep_backoff n)
      by (apply to_uint32_small; unfold in_range, modulus; lia).
    split; [|split; [|split; [|split; [|split; [|split]]]]];
      try lia; try assumption.
    + rewrite Hs.
      replace (144 * (1000 * 2 ^ exponent n))
        with ((1440 * 2 ^ exponent n) * 100) by lia.
      apply Z.mod_mul. lia.
    + intros _. exact Ht.
Qed.

(** C9 at the first attempt that reaches the last tier. *)
Lemma sleep_time_exact_witness :
  in_range 21 /\
  (144 * sleep_backoff 21 <= 144 * 128000 /\
   144 * 128000 = 18432000 /\
   18432000 < 2 ^ 32 /\
   to_uint32 (144 * sleep_backoff 21) = 144 * sleep_backoff 21 /\
   (144 * sleep_backoff 21) mod 100 = 0 /\
   sleep_time 21 * 100 = 144 * sleep_backoff 21 /\
   (1 <= 21 -> sleep_time 21 = 1440 * 2 ^ Z.min 7 (21 / 3))).
Proof.
  assert (H : in_range 21) by (unfold in_range, modulus; lia).
  split; [exact H | apply (sleep_time_exact 21 H)].
Defined.

(** ** The qualification routine *)

(** C3: a qualification that sleeps with the counter at [n >= 1] after the
    increment asks for [scalingFactor * sleepBackoffSeconds(n) * 1000 / 100]
    with [scalingFactor = 144]; for [n = 1] that is [1440], not zero. *)
Theorem sleep_duration_matches_formula (p : Platform) (w : World) (n : Z) :
  SFltb (soc_reading p) LOW_BATT_CAPACITY = true ->
  n = to_uint32 (low_batt_sleep_attempts w + 1) ->
  1 <= n ->
  let r := qualify_battery_and_hibernate p w in
  low_batt_sleep_attempts (world r) = n /\
  sleep_requests (calls r) =
    [scalingFactor * sleepBackoffSeconds n * 1000 / 100] /\
  (n = 1 -> sleep_requests (calls r) = [1440]).
Proof.
  intros Hlow Hn H1 r. subst r.
  rewrite (sleep_requests_qualify_low p w Hlow), (qualify_low p w Hlow).
  rewrite <- Hn. split; [reflexivity|]. split.
  - f_equal. rewrite sleep_time_pos by assumption.
    unfold scalingFactor, sleepBackoffSeconds, exponent.
    destruct (Z.eqb_spec n 0) as [E|_]; [lia|].
    replace (144 * 2 ^ Z.min 7 (n / 3) * 1000)
      with ((1440 * 2 ^ Z.min 7 (n / 3)) * 100) by lia.
    symmetry. apply Z.div_mul. lia.
  - intros ->. reflexivity.
Qed.

(** C3 on the first low reading after power-on. *)
Lemma sleep_duration_matches_formula_witness :
  SFltb (soc_reading (reading soc_15 true)) LOW_BATT_CAPACITY = true /\
  1 = to_uint32 (low_batt_sleep_attempts power_on + 1) /\
  1 <= 1 /\
  (low_batt_sleep_attempts
     (world (qualify_battery_and_hibernate (reading soc_15 true) power_on)) = 1 /\
   sleep_requests
     (calls (qualify_battery_and_hibernate (reading soc_15 true) power_on)) =
     [scalingFactor * sleepBackoffSeconds 1 * 1000 / 100] /\
   (1 = 1 ->
    sleep_requests
      (calls (qualify_battery_and_hibernate (reading soc_15 true) power_on)) =
      [1440])).
Proof.
  split; [reflexivity | split; [reflexivity | split; [lia|]]].
  apply (sleep_duration_matches_formula (reading soc_15 true) power_on 1);
    [reflexivity | reflexivity | lia].
Defined.

(** C10, as stated, fails when the counter is at [4294967295]: the increment
    wraps to [0], so the counter is not [>= 1] when the device sleeps, and
    the routine asks for a sleep of [0], outside [1440 .. 184320]. *)
Lemma sleep_of_zero_after_wraparound :
  SFltb (soc_reading (reading soc_15 false)) LOW_BATT_CAPACITY = true /\
  low_batt_sleep_attempts attempts_at_max = 4294967295 /\
  low_batt_sleep_attempts
    (world (qualify_battery_and_hibernate (reading soc_15 false) attempts_at_max)) = 0 /\
  sleep_requests
    (calls (qualify_battery_and_hibernate (reading soc_15 false) attempts_at_max)) = [0] /\
  ~ (1440 <= 0 <= 184320).
Proof. repeat split. lia. Qed.

(** C10, amended: whenever the routine invokes the sleep primitive and the
    counter was below [4294967295] before the call, the counter is [>= 1]
    after the increment and the requested duration lies between [1440] and
    [184320] inclusive; it is [1440] for attempts 1 and 2 and [184320] from
    attempt 21 onward. *)
Theorem sleep_duration_range (p : Platform) (w : World) (d : Z) :
  in_range (low_batt_sleep_attempts w) ->
  low_batt_sleep_attempts w < UINT32_MAX ->
  let r := qualify_battery_and_hibernate p w in
  In d (sleep_requests (calls r)) ->
  let n := low_batt_sleep_attempts (world r) in
  n = low_batt_sleep_attempts w + 1 /\
  1 <= n /\
  d = sleep_time n /\
  1440 <= d <= 184320 /\
  (n <= 2 -> d = 1440) /\
  (21 <= n -> d = 184320).
Proof.
  intros Hw Hmax r Hd n. subst r n.
  destruct (SFltb (soc_reading p) LOW_BATT_CAPACITY) eqn:Hlow.
  - rewrite (sleep_requests_qualify_low p w Hlow) in Hd.
    rewrite (attempts_qualify_low p w Hlow).
    rewrite (increment_below_max _ Hw Hmax) in *.
    destruct Hd as [Hd|[]]. subst d.
    set (n := low_batt_sleep_attempts w + 1) in *.
    assert (H1 : 1 <= n) by (unfold n, in_range in *; lia).
    pose proof (sleep_time_pos n H1) as Ht.
    pose proof (pow2_exponent_bounds _ (exponent_bounds n ltac:(lia))) as Hp.
    split; [reflexivity|]. split; [exact H1|]. split; [reflexivity|].
    split; [lia|]. split.
    + intros H2. rewrite Ht. unfold exponent.
      assert (E : n / 3 = 0) by (apply Z.div_small; lia).
      rewrite E. reflexivity.
    + intros H21. rewrite Ht, (exponent_saturates n H21). reflexivity.
  - rewrite (qualify_not_low p w Hlow) in Hd. destruct Hd.
Qed.

(** C10, amended, on the second consecutive low reading. *)
Lemma sleep_duration_range_witness :
  in_range (low_batt_sleep_attempts after_one_sleep) /\
  low_batt_sleep_attempts after_one_sleep < UINT32_MAX /\
  In 1440
    (sleep_requests
       (calls (qualify_battery_and_hibernate (reading soc_15 false) after_one_sleep))) /\
  (low_batt_sleep_attempts
     (world (qualify_battery_and_hibernate (reading soc_15 false) after_one_sleep)) =
     low_batt_sleep_attempts after_one_sleep + 1 /\
   1 <= low_batt_sleep_attempts
          (world (qualify_battery_and_hibernate (reading soc_15 false) after_one_sleep)) /\
   1440 = sleep_time
            (low_batt_sleep_attempts
               (world (qualify_battery_and_hibernate (reading soc_15 false)
                         after_one_sleep))) /\
   1440 <= 1440 <= 184320 /\
   (low_batt_sleep_attempts
      (world (qualify_battery_and_hibernate (reading soc_15 false) after_one_sleep))
      <= 2 -> 1440 = 1440) /\
   (21 <= low_batt_sleep_attempts
            (world (qualify_battery_and_hibernate (reading soc_15 false)
                      after_one_sleep)) -> 1440 = 184320)).
Proof.
  assert (Hr : in_range (low_batt_sleep_attempts after_one_sleep))
    by (unfold in_range, modulus; simpl; lia).
  assert (Hm : low_batt_sleep_attempts after_one_sleep < UINT32_MAX)
    by reflexivity.
  assert (Hd : In 1440
    (sleep_requests
       (calls (qualify_battery_and_hibernate (reading soc_15 false) after_one_sleep))))
    by (left; reflexivity).
  split; [exact Hr | split; [exact Hm | split; [exact Hd|]]].
  exact (sleep_duration_range (reading soc_15 false) after_one_sleep 1440 Hr Hm Hd).
Defined.

(** C2, as stated, fails when the counter is at [4294967295]: a call that
    reads a SoC below the threshold leaves it at [0], not one higher. *)
Lemma increment_wraps_at_max :
  SFltb (soc_reading (reading soc_15 true)) LOW_BATT_CAPACITY = true /\
  low_batt_sleep_attempts attempts_at_max = 4294967295 /\
  low_batt_sleep_attempts
    (world (qualify_battery_and_hibernate (reading soc_15 true) attempts_at_max)) = 0 /\
  low_batt_sleep_attempts
    (world (qualify_battery_and_hibernate (reading soc_15 true) attempts_at_max)) <>
  low_batt_sleep_attempts attempts_at_max + 1.
Proof. repeat split. discriminate. Qed.

(** C2, amended: in every sequence of qualification calls, a call that reads
    a SoC below the threshold suspends the device and leaves the counter
    incremented by one modulo [2^32], which is exactly one more whenever the
    counter was below [4294967295], and does not reset it; a call that reads
    a SoC at or above the threshold returns and leaves the counter at exactly
    [0]; a below-threshold call that follows such a reset leaves the counter
    at [1]. *)
Theorem attempts_over_calls (w : World) (ps : list Platform) (p : Platform) :
  in_range (low_batt_sleep_attempts w) ->
  let before := qualifications ps w in
  let r := qualify_battery_and_hibernate p before in
  qualifications (ps ++ [p]) w = world r /\
  (SFltb (soc_reading p) LOW_BATT_CAPACITY = true ->
   outcome r = Suspended /\
   low_batt_sleep_attempts (world r) =
     to_uint32 (low_batt_sleep_attempts before + 1) /\
   (low_batt_sleep_attempts before < UINT32_MAX ->
    low_batt_sleep_attempts (world r) = low_batt_sleep_attempts before + 1)) /\
  (SFleb LOW_BATT_CAPACITY (soc_reading p) = true ->
   outcome r = Returned tt /\
   low_batt_sleep_attempts (world r) = 0 /\
   forall q : Platform,
     SFltb (soc_reading q) LOW_BATT_CAPACITY = true ->
     low_batt_sleep_attempts (qualifications (ps ++ [p; q]) w) = 1).
Proof.
  intros Hw before r.
  split; [apply qualifications_snoc|]. split.
  - intros Hlow. subst r.
    split; [now apply outcome_qualify_low|].
    split; [now apply attempts_qualify_low|].
    intros Hmax. rewrite (attempts_qualify_low _ _ Hlow).
    apply increment_below_max; [|exact Hmax].
    apply qualifications_in_range; exact Hw.
  - intros Hge. apply SFleb_not_SFltb in Hge. subst r.
    split; [rewrite (qualify_not_low _ _ Hge); reflexivity|].
    split; [now apply attempts_qualify_not_low|].
    intros q Hq.
    change (ps ++ [p; q]) with (ps ++ [p] ++ [q]).
    rewrite app_assoc, qualifications_snoc, (attempts_qualify_low _ _ Hq).
    rewrite qualifications_snoc, (attempts_qualify_not_low _ _ Hge).
    reflexivity.
Qed.

(** C2, amended, on the recovery that follows five low readings. *)
Lemma attempts_over_calls_witness :
  in_range (low_batt_sleep_attempts power_on) /\
  low_batt_sleep_attempts (qualifications five_low power_on) = 5 /\
  (qualifications (five_low ++ [reading soc_25 true]) power_on =
     world (qualify_battery_and_hibernate (reading soc_25 true)
              (qualifications five_low power_on)) /\
   (SFltb (soc_reading (reading soc_25 true)) LOW_BATT_CAPACITY = true ->
    outcome (qualify_battery_and_hibernate (reading soc_25 true)
               (qualifications five_low power_on)) = Suspended /\
    low_batt_sleep_attempts
      (world (qualify_battery_and_hibernate (reading soc_25 true)
                (qualifications five_low power_on))) =
      to_uint32 (low_batt_sleep_attempts (qualifications five_low power_on) + 1) /\
    (low_batt_sleep_attempts (qualifications five_low power_on) < UINT32_MAX ->
     low_batt_sleep_attempts
       (world (qualify_battery_and_hibernate (reading soc_25 true)
                 (qualifications five_low power_on))) =
       low_batt_sleep_attempts (qualifications five_low power_on) + 1)) /\
   (SFleb LOW_BATT_CAPACITY (soc_reading (reading soc_25 true)) = true ->
    outcome (qualify_battery_and_hibernate (reading soc_25 true)
               (qualifications five_low power_on)) = Returned tt /\
    low_batt_sleep_attempts
      (world (qualify_battery_and_hibernate (reading soc_25 true)
                (qualifications five_low power_on))) = 0 /\
    forall q : Platform,
      SFltb (soc_reading q) LOW_BATT_CAPACITY = true ->
      low_batt_sleep_attempts
        (qualifications (five_low ++ [reading soc_25 true; q]) power_on) = 1)).
Proof.
  assert (Hr : in_range (low_batt_sleep_attempts power_on))
    by (unfold in_range, modulus; simpl; lia).
  split; [exact Hr | split; [reflexivity|]].
  exact (attempts_over_calls power_on five_low (reading soc_25 true) Hr).
Defined.

(** Scenario E: after five low readings the counter is at [5]; the recovery
    to 25.0 clears it and the next drop to 15.0 starts again at [1]. *)
Example recovery_restarts_backoff :
  low_batt_sleep_attempts (qualifications five_low power_on) = 5 /\
  low_batt_sleep_attempts
    (qualifications (five_low ++ [reading soc_25 true]) power_on) = 0 /\
  low_batt_sleep_attempts
    (qualifications (five_low ++ [reading soc_25 true; reading soc_15 true])
       power_on) = 1.
Proof. repeat split. Qed.

(** Scenario C: the sleeps requested on attempts 1 to 21 of an unbroken run
    of low readings follow the tiers, three attempts each after the first
    two. *)
Example durations_of_21_attempts :
  map (fun k : nat =>
         sleep_requests
           (calls (qualify_battery_and_hibernate (reading soc_15 false)
                     (qualifications (repeat (reading soc_15 false) k) power_on))))
      (seq 0 21) =
  map (fun d : Z => [d])
    [1440; 1440; 2880; 2880; 2880; 5760; 5760; 5760; 11520; 11520; 11520;
     23040; 23040; 23040; 46080; 46080; 46080; 92160; 92160; 92160; 184320].
Proof. vm_compute. reflexivity. Qed.

(** C4: a qualification that reads a SoC exactly equal to the threshold
    [20.0] returns without any call to the platform, so without sleep and
    without publish, and leaves the counter at [0]; a qualification sleeps
    exactly when the reading is strictly lower than the threshold. *)
Theorem threshold_reading_does_not_sleep (p : Platform) (w : World) :
  soc_reading p = LOW_BATT_CAPACITY ->
  let r := qualify_battery_and_hibernate p w in
  outcome r = Returned tt /\
  calls r = [] /\
  existsb is_sleep (calls r) = false /\
  existsb is_publish (calls r) = false /\
  low_batt_sleep_attempts (world r) = 0 /\
  (forall (q : Platform) (v : World),
     existsb is_sleep (calls (qualify_battery_and_hibernate q v)) =
       SFltb (soc_reading q) LOW_BATT_CAPACITY).
Proof.
  intros Hsoc r.
  assert (Hlow : SFltb (soc_reading p) LOW_BATT_CAPACITY = false)
    by (rewrite Hsoc; reflexivity).
  subst r. rewrite (qualify_not_low p w Hlow).
  do 5 (split; [reflexivity|]).
  intros q v. destruct (SFltb (soc_reading q) LOW_BATT_CAPACITY) eqn:Hq.
  - rewrite (qualify_low q v Hq). unfold calls; simpl snd.
    rewrite existsb_app. simpl. apply orb_true_r.
  - rewrite (qualify_not_low q v Hq). reflexivity.
Qed.

(** C4 with five attempts on the counter and the cloud connected. *)
Lemma threshold_reading_does_not_sleep_witness :
  soc_reading (reading LOW_BATT_CAPACITY true) = LOW_BATT_CAPACITY /\
  (outcome (qualify_battery_and_hibernate (reading LOW_BATT_CAPACITY true)
              after_five_sleeps) = Returned tt /\
   calls (qualify_battery_and_hibernate (reading LOW_BATT_CAPACITY true)
            after_five_sleeps) = [] /\
   existsb is_sleep
     (calls (qualify_battery_and_hibernate (reading LOW_BATT_CAPACITY true)
               after_five_sleeps)) = false /\
   existsb is_publish
     (calls (qualify_battery_and_hibernate (reading LOW_BATT_CAPACITY true)
               after_five_sleeps)) = false /\
   low_batt_sleep_attempts
     (world (qualify_battery_and_hibernate (reading LOW_BATT_CAPACITY true)
               after_five_sleeps)) = 0 /\
   (forall (q : Platform) (v : World),
      existsb is_sleep (calls (qualify_battery_and_hibernate q v)) =
        SFltb (soc_reading q) LOW_BATT_CAPACITY)).
Proof.
  split; [reflexivity|].
  exact (threshold_reading_does_not_sleep (reading LOW_BATT_CAPACITY true)
           after_five_sleeps eq_refl).
Defined.

(** C6: a qualification that sleeps while the cloud is not connected makes
    no publish call and still invokes the sleep primitive, once, with the
    duration of the formula; the same call with the cloud connected
    publishes, and asks for the same duration, ends the same way and leaves
    the same variables. *)
Theorem sleep_without_connectivity (p : Platform) (w : World) :
  SFltb (soc_reading p) LOW_BATT_CAPACITY = true ->
  cloud_connected p = false ->
  let r := qualify_battery_and_hibernate p w in
  let r' := qualify_battery_and_hibernate (set_cloud_connected true p) w in
  existsb is_publish (calls r) = false /\
  outcome r = Suspended /\
  sleep_requests (calls r) =
    [sleep_time (to_uint32 (low_batt_sleep_attempts w + 1))] /\
  existsb is_publish (calls r') = true /\
  sleep_requests (calls r') = sleep_requests (calls r) /\
  outcome r' = outcome r /\
  world r' = world r.
Proof.
  intros Hlow Hoff r r'.
  assert (Hlow' : SFltb (soc_reading (set_cloud_connected true p))
                    LOW_BATT_CAPACITY = true) by exact Hlow.
  subst r r'.
  rewrite (sleep_requests_qualify_low _ w Hlow').
  rewrite (sleep_requests_qualify_low _ w Hlow).
  rewrite (qualify_low _ w Hlow'), (qualify_low p w Hlow), Hoff.
  repeat split.
Qed.

(** C6 on the first low reading after power-on. *)
Lemma sleep_without_connectivity_witness :
  SFltb (soc_reading (reading soc_15 false)) LOW_BATT_CAPACITY = true /\
  cloud_connected (reading soc_15 false) = false /\
  (existsb is_publish
     (calls (qualify_battery_and_hibernate (reading soc_15 false) power_on)) = false /\
   outcome (qualify_battery_and_hibernate (reading soc_15 false) power_on) =
     Suspended /\
   sleep_requests
     (calls (qualify_battery_and_hibernate (reading soc_15 false) power_on)) =
     [sleep_time (to_uint32 (low_batt_sleep_attempts power_on + 1))] /\
   existsb is_publish
     (calls (qualify_battery_and_hibernate
               (set_cloud_connected true (reading soc_15 false)) power_on)) = true /\
   sleep_requests
     (calls (qualify_battery_and_hibernate
               (set_cloud_connected true (reading soc_15 false)) power_on)) =
     sleep_requests
       (calls (qualify_battery_and_hibernate (reading soc_15 false) power_on)) /\
   outcome (qualify_battery_and_hibernate
              (set_cloud_connected true (reading soc_15 false)) power_on) =
     outcome (qualify_battery_and_hibernate (reading soc_15 false) power_on) /\
   world (qualify_battery_and_hibernate
            (set_cloud_connected true (reading soc_15 false)) power_on) =
     world (qualify_battery_and_hibernate (reading soc_15 false) power_on)).
Proof.
  split; [reflexivity | split; [reflexivity|]].
  exact (sleep_without_connectivity (reading soc_15 false) power_on
           eq_refl eq_refl).
Defined.

(** C7: two qualifications in succession with the SoC reading held at one
    value above the threshold both return and leave the counter at [0]; the
    second leaves the variables as the first did. *)
Theorem above_threshold_twice (p : Platform) (w : World) :
  SFltb LOW_BATT_CAPACITY (soc_reading p) = true ->
  let r1 := qualify_battery_and_hibernate p w in
  let r2 := qualify_battery_and_hibernate p (world r1) in
  outcome r1 = Returned tt /\
  low_batt_sleep_attempts (world r1) = 0 /\
  outcome r2 = Returned tt /\
  low_batt_sleep_attempts (world r2) = 0 /\
  world r2 = world r1.
Proof.
  intros Habove r1 r2. apply SFltb_asym in Habove. subst r2 r1.
  rewrite (qualify_not_low p w Habove).
  rewrite (qualify_not_low p _ Habove).
  repeat split.
Qed.

(** C7 with the reading held at 25.0 after five sleeps. *)
Lemma above_threshold_twice_witness :
  SFltb LOW_BATT_CAPACITY (soc_reading (reading soc_25 true)) = true /\
  (outcome (qualify_battery_and_hibernate (reading soc_25 true) after_five_sleeps) =
     Returned tt /\
   low_batt_sleep_attempts
     (world (qualify_battery_and_hibernate (reading soc_25 true) after_five_sleeps)) = 0 /\
   outcome
     (qualify_battery_and_hibernate (reading soc_25 true)
        (world (qualify_battery_and_hibernate (reading soc_25 true)
                  after_five_sleeps))) = Returned tt /\
   low_batt_sleep_attempts
     (world
        (qualify_battery_and_hibernate (reading soc_25 true)
           (world (qualify_battery_and_hibernate (reading soc_25 true)
                     after_five_sleeps)))) = 0 /\
   world
     (qualify_battery_and_hibernate (reading soc_25 true)
        (world (qualify_battery_and_hibernate (reading soc_25 true)
                  after_five_sleeps))) =
     world (qualify_battery_and_hibernate (reading soc_25 true) after_five_sleeps)).
Proof.
  split; [reflexivity|].
  exact (above_threshold_twice (reading soc_25 true) after_five_sleeps eq_refl).
Defined.

(** ** The serial console *)

Lemma to_char_read (c : ascii) : to_char (Z.of_N (N_of_ascii c)) = c.
Proof.
  unfold to_char.
  assert (H : (N_of_ascii c < 256)%N) by apply N_ascii_bounded.
  rewrite Z.mod_small by lia.
  rewrite N2Z.id. apply ascii_N_embedding.
Qed.

Lemma drain_all (p : Platform) (rx : list ascii) (w : World) :
  MY_SERIAL w = rx ->
  drain rx p w = (Returned tt, set_MY_SERIAL [] w, []).
Proof.
  revert w. induction rx as [|c rest IH]; intros w Hrx.
  - destruct w; simpl in *; subst; reflexivity.
  - cbn. unfold Run_bind, MY_SERIAL_read. rewrite Hrx.
    rewrite (IH (set_MY_SERIAL rest w) eq_refl). reflexivity.
Qed.

(** C8: when the character read from the console is none of [q], [Q], [b],
    [v], [h], the handler prints the bad-command message and returns; the
    variables, [last_battery_capacity] and [low_batt_sleep_attempts] among
    them, keep their values, and the pending input is discarded. *)
Theorem unrecognized_command (p : Platform) (w : World)
    (c : ascii) (rest : list ascii) :
  MY_SERIAL w = c :: rest ->
  c <> "q"%char -> c <> "Q"%char -> c <> "b"%char ->
  c <> "v"%char -> c <> "h"%char ->
  let r := processSerial p w in
  outcome r = Returned tt /\
  calls r = [Println [Lit "Bad command! Press [h] for help menu."]] /\
  last_battery_capacity (world r) = last_battery_capacity w /\
  low_batt_sleep_attempts (world r) = low_batt_sleep_attempts w /\
  lastBlink (world r) = lastBlink w /\
  world r = set_MY_SERIAL [] w.
Proof.
  intros Hrx Hq HQ Hb Hv Hh r. subst r.
  apply Ascii.eqb_neq in Hq, HQ, Hb, Hv, Hh.
  unfold processSerial; cbn.
  unfold Run_bind, MY_SERIAL_available, MY_SERIAL_read. rewrite Hrx.
  cbn [List.length]. rewrite Nat2Z.inj_succ.
  destruct (Z.ltb_spec 0 (Z.succ (Z.of_nat (List.length rest)))) as [_|Hneg];
    [|lia].
  rewrite Hrx, to_char_read, Hq, HQ, Hb, Hv, Hh.
  unfold MY_SERIAL_println, call, flush_input.
  cbn [MY_SERIAL set_MY_SERIAL].
  rewrite (drain_all p rest (set_MY_SERIAL rest w) eq_refl).
  repeat split.
Qed.

(** C8 on the character [x]. *)
Lemma unrecognized_command_witness :
  MY_SERIAL typed_x_b = "x"%char :: ["b"%char] /\
  (outcome (processSerial (reading soc_15 true) typed_x_b) = Returned tt /\
   calls (processSerial (reading soc_15 true) typed_x_b) =
     [Println [Lit "Bad command! Press [h] for help menu."]] /\
   last_battery_capacity (world (processSerial (reading soc_15 true) typed_x_b)) =
     last_battery_capacity typed_x_b /\
   low_batt_sleep_attempts (world (processSerial (reading soc_15 true) typed_x_b)) =
     low_batt_sleep_attempts typed_x_b /\
   lastBlink (world (processSerial (reading soc_15 true) typed_x_b)) =
     lastBlink typed_x_b /\
   world (processSerial (reading soc_15 true) typed_x_b) =
     set_MY_SERIAL [] typed_x_b).
Proof.
  split; [reflexivity|].
  apply (unrecognized_command (reading soc_15 true) typed_x_b "x" ["b"%char]);
    [reflexivity | | | | | ]; discriminate.
Defined.

(** * Further properties of the sketch *)

(** ** The back-off series *)




(** X2: for every [uint32_t] attempt number the shift count of
    [1<<exponent] is below the width of [int], the shifted value is at most
    [128] and the product [1000*(1<<exponent)] at most [128000], within
    [int]: the signed computation cannot overflow and its conversion to
    [uint32_t] keeps the value. *)
Theorem sleep_backoff_within_int (n : Z) :
  in_range n ->
  0 <= exponent n < 32 /\
  1 <= Z.shiftl 1 (exponent n) <= 128 /\
  1000 * Z.shiftl 1 (exponent n) <= 128000 /\
  128000 <= 2 ^ 31 - 1 /\
  to_uint32 (1000 * Z.shiftl 1 (exponent n)) = 1000 * Z.shiftl 1 (exponent n).
Proof.
  intros [Hn _].
  pose proof (exponent_bounds n Hn) as He.
  pose proof (pow2_exponent_bounds _ He) as Hp.
  rewrite shiftl_one by lia.
  split; [lia|]. split; [lia|]. split; [lia|]. split; [lia|].
  apply to_uint32_small. unfold in_range, modulus. lia.
Qed.

(** X2 at the largest attempt number. *)
Lemma sleep_backoff_within_int_witness :
  in_range UINT32_MAX /\
  (0 <= exponent UINT32_MAX < 32 /\
   1 <= Z.shiftl 1 (exponent UINT32_MAX) <= 128 /\
   1000 * Z.shiftl 1 (exponent UINT32_MAX) <= 128000 /\
   128000 <= 2 ^ 31 - 1 /\
   to_uint32 (1000 * Z.shiftl 1 (exponent UINT32_MAX)) =
     1000 * Z.shiftl 1 (exponent UINT32_MAX)).
Proof.
  assert (H : in_range UINT32_MAX)
    by (unfold in_range, UINT32_MAX, modulus; lia).
  split; [exact H | exact (sleep_backoff_within_int UINT32_MAX H)].
Defined.

Lemma exponent_next (n : Z) :
  0 <= n -> exponent (n + 1) = exponent n \/ exponent (n + 1) = exponent n + 1.
Proof.
  intros Hn. unfold exponent.
  assert (H : (n + 1) / 3 = n / 3 \/ (n + 1) / 3 = n / 3 + 1).
  { pose proof (Z.div_mod n 3 ltac:(lia)) as Hd.
    pose proof (Z.mod_pos_bound n 3 ltac:(lia)) as Hm.
    destruct (Z.eq_dec (n mod 3) 2) as [E|E].
    - right. symmetry. apply (Z.div_unique (n + 1) 3 (n / 3 + 1) 0); lia.
    - left. symmetry. apply (Z.div_unique (n + 1) 3 (n / 3) (n mod 3 + 1)); lia. }
  destruct H as [H|H]; rewrite H; lia.
Qed.

(** X3: of two qualifications in succession that both read a low SoC, the
    second asks for a sleep that is as long as the first one's or twice as
    long, never shorter, as long as the counter stays below [4294967295]. *)
Theorem next_sleep_same_or_double (p q : Platform) (w : World) :
  in_range (low_batt_sleep_attempts w) ->
  low_batt_sleep_attempts w + 1 < UINT32_MAX ->
  is_low p = true -> is_low q = true ->
  let r1 := qualify_battery_and_hibernate p w in
  let r2 := qualify_battery_and_hibernate q (world r1) in
  exists d1 d2 : Z,
    sleep_requests (calls r1) = [d1] /\
    sleep_requests (calls r2) = [d2] /\
    1440 <= d1 <= d2 /\
    (d2 = d1 \/ d2 = 2 * d1).
Proof.
  intros Hw Hmax Hp Hq r1 r2. subst r1 r2. unfold is_low in Hp, Hq.
  rewrite (sleep_requests_qualify_low q _ Hq).
  rewrite (sleep_requests_qualify_low p w Hp).
  rewrite (attempts_qualify_low p w Hp).
  assert (H1 : to_uint32 (low_batt_sleep_attempts w + 1) =
               low_batt_sleep_attempts w + 1)
    by (apply increment_below_max; [exact Hw | lia]).
  rewrite H1.
  set (n := low_batt_sleep_attempts w + 1) in *.
  assert (Hn : 1 <= n) by (unfold n, in_range in *; lia).
  assert (H2 : to_uint32 (n + 1) = n + 1).
  { apply to_uint32_small. unfold in_range, UINT32_MAX in *. lia. }
  rewrite H2.
  exists (sleep_time n), (sleep_time (n + 1)).
  rewrite (sleep_time_pos n Hn), (sleep_time_pos (n + 1)) by lia.
  pose proof (pow2_exponent_bounds _ (exponent_bounds n ltac:(lia))) as Hb.
  split; [reflexivity|]. split; [reflexivity|].
  destruct (exponent_next n ltac:(lia)) as [E|E]; rewrite E.
  - split; [lia | left; reflexivity].
  - pose proof (exponent_bounds n ltac:(lia)) as He.
    rewrite Z.pow_add_r by lia. split; [lia | right; lia].
Qed.

(** X3 on the second and third low readings after power-on. *)
Lemma next_sleep_same_or_double_witness :
  in_range (low_batt_sleep_attempts after_one_sleep) /\
  low_batt_sleep_attempts after_one_sleep + 1 < UINT32_MAX /\
  is_low (reading soc_15 true) = true /\
  is_low (reading soc_15 false) = true /\
  exists d1 d2 : Z,
    sleep_requests
      (calls (qualify_battery_and_hibernate (reading soc_15 true) after_one_sleep)) =
      [d1] /\
    sleep_requests
      (calls (qualify_battery_and_hibernate (reading soc_15 false)
                (world (qualify_battery_and_hibernate (reading soc_15 true)
                          after_one_sleep)))) = [d2] /\
    1440 <= d1 <= d2 /\
    (d2 = d1 \/ d2 = 2 * d1).
Proof.
  assert (Hr : in_range (low_batt_sleep_attempts after_one_sleep))
    by (unfold in_range, modulus; simpl; lia).
  assert (Hm : low_batt_sleep_attempts after_one_sleep + 1 < UINT32_MAX)
    by reflexivity.
  split; [exact Hr | split; [exact Hm | split; [reflexivity | split; [reflexivity|]]]].
  exact (next_sleep_same_or_double (reading soc_15 true) (reading soc_15 false)
           after_one_sleep Hr Hm eq_refl eq_refl).
Defined.

(** ** The counter over a history of readings *)

Lemma to_uint32_succ (a : Z) : to_uint32 (to_uint32 a + 1) = to_uint32 (a + 1).
Proof. unfold to_uint32. apply Zplus_mod_idemp_l. Qed.

Lemma low_streak_snoc (ps : list Platform) (p : Platform) :
  low_streak (ps ++ [p]) = if is_low p then S (low_streak ps) else O.
Proof. unfold low_streak. rewrite rev_app_distr. reflexivity. Qed.

Lemma attempts_snoc (ps : list Platform) (p : Platform) (w : World) :
  low_batt_sleep_attempts (qualifications (ps ++ [p]) w) =
    if is_low p
    then to_uint32 (low_batt_sleep_attempts (qualifications ps w) + 1)
    else 0.
Proof.
  rewrite qualifications_snoc. unfold is_low.
  destruct (SFltb (soc_reading p) LOW_BATT_CAPACITY) eqn:Hlow.
  - now apply attempts_qualify_low.
  - now apply attempts_qualify_not_low.
Qed.

(** X4: after any history of qualifications the counter is the number of
    low readings since the last reading that was not low, modulo [2^32],
    whatever it was before; when every reading of the history was low it is
    the initial counter plus the length of the history, modulo [2^32]. *)
Theorem attempts_count_low_streak (w : World) (ps : list Platform) :
  in_range (low_batt_sleep_attempts w) ->
  (existsb (fun p => negb (is_low p)) ps = true ->
   low_batt_sleep_attempts (qualifications ps w) =
     to_uint32 (Z.of_nat (low_streak ps))) /\
  (forallb is_low ps = true ->
   low_batt_sleep_attempts (qualifications ps w) =
     to_uint32 (low_batt_sleep_attempts w + Z.of_nat (List.length ps))).
Proof.
  intros Hw. split.
  - induction ps as [|p ps IH] using rev_ind; [discriminate|].
    intros Hex. rewrite attempts_snoc, low_streak_snoc.
    rewrite existsb_app in Hex. simpl in Hex.
    destruct (is_low p); [|reflexivity].
    simpl in Hex. rewrite orb_false_r in Hex.
    rewrite (IH Hex), to_uint32_succ. f_equal. lia.
  - induction ps as [|p ps IH] using rev_ind.
    + intros _. simpl. rewrite Z.add_0_r. symmetry. now apply to_uint32_small.
    + intros Hall. rewrite forallb_app in Hall. simpl in Hall.
      apply andb_true_iff in Hall. destruct Hall as [Hps Hp].
      rewrite andb_true_r in Hp.
      rewrite attempts_snoc, Hp, (IH Hps), to_uint32_succ.
      f_equal. rewrite length_app. simpl. lia.
Qed.

(** X4 on a history with a recovery in the middle. *)
Lemma attempts_count_low_streak_witness :
  in_range (low_batt_sleep_attempts after_five_sleeps) /\
  low_streak dip_recover_dip = 3%nat /\
  ((existsb (fun p => negb (is_low p)) dip_recover_dip = true ->
    low_batt_sleep_attempts (qualifications dip_recover_dip after_five_sleeps) =
      to_uint32 (Z.of_nat (low_streak dip_recover_dip))) /\
   (forallb is_low dip_recover_dip = true ->
    low_batt_sleep_attempts (qualifications dip_recover_dip after_five_sleeps) =
      to_uint32 (low_batt_sleep_attempts after_five_sleeps
                 + Z.of_nat (List.length dip_recover_dip)))).
Proof.
  assert (Hr : in_range (low_batt_sleep_attempts after_five_sleeps))
    by (unfold in_range, modulus; simpl; lia).
  split; [exact Hr | split; [reflexivity|]].
  exact (attempts_count_low_streak after_five_sleeps dip_recover_dip Hr).
Defined.

(** ** More on one qualification *)

Lemma qualify_world (p : Platform) (w : World) :
  world (qualify_battery_and_hibernate p w) =
    set_low_batt_sleep_attempts
      (if is_low p then to_uint32 (low_batt_sleep_attempts w + 1) else 0) w.
Proof.
  unfold is_low.
  destruct (SFltb (soc_reading p) LOW_BATT_CAPACITY) eqn:Hlow.
  - rewrite (qualify_low p w Hlow). reflexivity.
  - rewrite (qualify_not_low p w Hlow). reflexivity.
Qed.

(** X5: a qualification changes no variable other than
    [low_batt_sleep_attempts]: [last_battery_capacity], [lastBlink] and the
    pending serial input are as before, whether it sleeps or returns. *)
Theorem qualify_changes_only_the_counter (p : Platform) (w : World) :
  world (qualify_battery_and_hibernate p w) =
    set_low_batt_sleep_attempts
      (if is_low p then to_uint32 (low_batt_sleep_attempts w + 1) else 0) w /\
  last_battery_capacity (world (qualify_battery_and_hibernate p w)) =
    last_battery_capacity w /\
  lastBlink (world (qualify_battery_and_hibernate p w)) = lastBlink w /\
  MY_SERIAL (world (qualify_battery_and_hibernate p w)) = MY_SERIAL w.
Proof. rewrite qualify_world. repeat split. Qed.

(** X6: in a qualification that sleeps, the sleep is the last call and the
    only sleep, and when the cloud is connected exactly one event is
    published, whose name carries the very duration handed to the sleep
    primitive; when it is not connected nothing is published. *)
Theorem sleep_event_announces_the_duration (p : Platform) (w : World) :
  is_low p = true ->
  let r := qualify_battery_and_hibernate p w in
  let d := sleep_time (to_uint32 (low_batt_sleep_attempts w + 1)) in
  last (calls r) (Delay 0) = Sleep SLEEP_MODE_SOFTPOWEROFF d /\
  filter is_sleep (calls r) = [Sleep SLEEP_MODE_SOFTPOWEROFF d] /\
  filter is_publish (calls r) =
    if cloud_connected p
    then [Publish [Lit "SLEEP "; OfUInt d]
            [OfFloat (soc_reading p); Lit "(%),";
             OfFloat (vcell_reading p); Lit "(V)"]]
    else [].
Proof.
  intros Hlow r d. subst r d. unfold is_low in Hlow.
  rewrite (qualify_low p w Hlow). unfold calls; simpl snd.
  destruct (cloud_connected p); repeat split.
Qed.

(** X6 on the first low reading after power-on, the cloud connected. *)
Lemma sleep_event_announces_the_duration_witness :
  is_low (reading soc_15 true) = true /\
  filter is_publish
    (calls (qualify_battery_and_hibernate (reading soc_15 true) power_on)) =
    [Publish [Lit "SLEEP "; OfUInt 1440]
       [OfFloat soc_15; Lit "(%),"; OfFloat vcell_3_7; Lit "(V)"]].
Proof.
  split; [reflexivity|].
  exact (proj2 (proj2
    (sleep_event_announces_the_duration (reading soc_15 true) power_on eq_refl))).
Defined.

(** X7: a SoC reading that is not a number is not lower than the threshold:
    the qualification returns without a call and clears the counter, as it
    does for a healthy battery. *)
Theorem nan_reading_clears_the_counter (p : Platform) (w : World) :
  soc_reading p = S754_nan ->
  qualify_battery_and_hibernate p w =
    (Returned tt, set_low_batt_sleep_attempts 0 w, []).
Proof.
  intros Hnan. apply qualify_not_low. rewrite Hnan. reflexivity.
Qed.

(** X7 after five sleeps. *)
Lemma nan_reading_clears_the_counter_witness :
  soc_reading (reading S754_nan true) = S754_nan /\
  low_batt_sleep_attempts
    (world (qualify_battery_and_hibernate (reading S754_nan true)
              after_five_sleeps)) = 0.
Proof.
  split; [reflexivity|].
  exact (f_equal (fun r => low_batt_sleep_attempts (world r))
           (nan_reading_clears_the_counter (reading S754_nan true)
              after_five_sleeps eq_refl)).
Defined.

(** ** More on the serial console *)

(** What [processSerial] does with the first pending character. *)
Lemma processSerial_first (p : Platform) (w : World)
    (c : ascii) (rest : list ascii) :
  MY_SERIAL w = c :: rest ->
  processSerial p w =
    if (c =? "q")%char then
      (Returned tt, set_MY_SERIAL [] w,
       [QuickStart; Delay 200;
        Println (Lit "Quickstart and Battery stats: " :: stats_text p)])
    else if (c =? "Q")%char then
      (Returned tt, set_MY_SERIAL [] w,
       [Println (Lit "Battery stats: " :: stats_text p)])
    else if (c =? "b")%char then
      if is_low p then
        (Suspended,
         set_low_batt_sleep_attempts
           (to_uint32 (low_batt_sleep_attempts w + 1)) (set_MY_SERIAL rest w),
         running_notice :: calls (qualify_battery_and_hibernate p w))
      else
        (Returned tt, set_low_batt_sleep_attempts 0 (set_MY_SERIAL [] w),
         [running_notice])
    else if (c =? "v")%char then
      (Returned tt, set_MY_SERIAL [] w,
       [Println [Lit "Fuel Gauge hardware version: "; OfInt (version_reading p)]])
    else if (c =? "h")%char then
      (Returned tt, set_MY_SERIAL [] w, calls (showHelp p w))
    else
      (Returned tt, set_MY_SERIAL [] w,
       [Println [Lit "Bad command! Press [h] for help menu."]]).
Proof.
  intros Hrx.
  match goal with |- _ = ?R => remember R as expected eqn:Hexp end.
  unfold processSerial; cbn.
  unfold Run_bind, MY_SERIAL_available, MY_SERIAL_read. rewrite Hrx.
  cbn [List.length]. rewrite Nat2Z.inj_succ.
  destruct (Z.ltb_spec 0 (Z.succ (Z.of_nat (List.length rest)))) as [_|Hneg];
    [|lia].
  rewrite Hrx, to_char_read.
  pose proof (drain_all p rest (set_MY_SERIAL rest w) eq_refl) as Hdrain.
  destruct (c =? "q")%char.
  { subst expected. cbn. rewrite Hdrain. reflexivity. }
  destruct (c =? "Q")%char.
  { subst expected. cbn. rewrite Hdrain. reflexivity. }
  destruct (c =? "b")%char.
  { unfold is_low in Hexp.
    destruct (SFltb (soc_reading p) LOW_BATT_CAPACITY) eqn:Hlow.
    - rewrite (qualify_low p w Hlow) in Hexp. subst expected.
      cbn. rewrite Hlow. destruct (cloud_connected p); reflexivity.
    - subst expected. cbn. rewrite Hlow. cbn.
      rewrite (drain_all p rest
                 (set_low_batt_sleep_attempts 0 (set_MY_SERIAL rest w)) eq_refl).
      reflexivity. }
  destruct (c =? "v")%char.
  { subst expected. cbn. rewrite Hdrain. reflexivity. }
  destruct (c =? "h")%char.
  { subst expected. cbn. rewrite Hdrain. reflexivity. }
  subst expected. cbn. rewrite Hdrain. reflexivity.
Qed.

Lemma processSerial_empty (p : Platform) (w : World) :
  MY_SERIAL w = [] -> processSerial p w = (Returned tt, w, []).
Proof.
  intros Hrx. unfold processSerial; cbn.
  unfold Run_bind, MY_SERIAL_available. rewrite Hrx. reflexivity.
Qed.

(** X8: with no input pending on the serial port, [processSerial] does
    nothing: no call, no variable changed. *)
Theorem processSerial_without_input (p : Platform) (w : World) :
  MY_SERIAL w = [] ->
  let r := processSerial p w in
  outcome r = Returned tt /\ world r = w /\ calls r = [].
Proof. intros Hrx r. subst r. rewrite (processSerial_empty p w Hrx). repeat split. Qed.

(** X8 on the variables after five sleeps. *)
Lemma processSerial_without_input_witness :
  MY_SERIAL after_five_sleeps = [] /\
  (outcome (processSerial (reading soc_15 true) after_five_sleeps) = Returned tt /\
   world (processSerial (reading soc_15 true) after_five_sleeps) =
     after_five_sleeps /\
   calls (processSerial (reading soc_15 true) after_five_sleeps) = []).
Proof.
  split; [reflexivity|].
  exact (processSerial_without_input (reading soc_15 true) after_five_sleeps
           eq_refl).
Defined.

(** X9: only the first pending character is interpreted.  The outcome, the
    calls and the variables are those of the same character typed alone,
    and when the handler returns the characters typed after it have been
    discarded. *)
Theorem only_first_character_counts (p : Platform) (w : World)
    (c : ascii) (rest : list ascii) :
  MY_SERIAL w = c :: rest ->
  let r := processSerial p w in
  let r1 := processSerial p (set_MY_SERIAL [c] w) in
  outcome r = outcome r1 /\
  calls r = calls r1 /\
  last_battery_capacity (world r) = last_battery_capacity (world r1) /\
  low_batt_sleep_attempts (world r) = low_batt_sleep_attempts (world r1) /\
  lastBlink (world r) = lastBlink (world r1) /\
  (outcome r = Returned tt -> MY_SERIAL (world r) = []).
Proof.
  intros Hrx r r1. subst r r1.
  rewrite (processSerial_first p w c rest Hrx).
  rewrite (processSerial_first p (set_MY_SERIAL [c] w) c [] eq_refl).
  destruct (c =? "q")%char; [repeat split|].
  destruct (c =? "Q")%char; [repeat split|].
  destruct (c =? "b")%char.
  { unfold is_low. destruct (SFltb (soc_reading p) LOW_BATT_CAPACITY) eqn:Hlow.
    - rewrite (qualify_low p w Hlow), (qualify_low p _ Hlow).
      repeat split. discriminate.
    - repeat split. }
  destruct (c =? "v")%char; [repeat split|].
  destruct (c =? "h")%char; repeat split.
Qed.

(** X9 with [Q] typed, then [b] and [x]. *)
Lemma only_first_character_counts_witness :
  MY_SERIAL typed_Q_b_x = "Q"%char :: ["b"%char; "x"%char] /\
  calls (processSerial (reading soc_15 true) typed_Q_b_x) =
    calls (processSerial (reading soc_15 true)
             (set_MY_SERIAL ["Q"%char] typed_Q_b_x)).
Proof.
  split; [reflexivity|].
  exact (proj1 (proj2
    (only_first_character_counts (reading soc_15 true) typed_Q_b_x
       "Q" ["b"%char; "x"%char] eq_refl))).
Defined.

(** X10: a first character other than [b], recognised or not, cannot put
    the device to sleep, publish or change a variable: the handler returns,
    the variables keep their values and only the pending input is gone. *)
Theorem only_b_reaches_the_monitor (p : Platform) (w : World)
    (c : ascii) (rest : list ascii) :
  MY_SERIAL w = c :: rest ->
  c <> "b"%char ->
  let r := processSerial p w in
  outcome r = Returned tt /\
  world r = set_MY_SERIAL [] w /\
  existsb is_sleep (calls r) = false /\
  existsb is_publish (calls r) = false.
Proof.
  intros Hrx Hb r. subst r. apply Ascii.eqb_neq in Hb.
  rewrite (processSerial_first p w c rest Hrx), Hb.
  destruct (c =? "q")%char; [repeat split|].
  destruct (c =? "Q")%char; [repeat split|].
  destruct (c =? "v")%char; [repeat split|].
  destruct (c =? "h")%char; repeat split.
Qed.

(** X10 on the command [q] with a low battery. *)
Lemma only_b_reaches_the_monitor_witness :
  MY_SERIAL typed_q = "q"%char :: [] /\
  "q"%char <> "b"%char /\
  (outcome (processSerial (reading soc_15 true) typed_q) = Returned tt /\
   world (processSerial (reading soc_15 true) typed_q) =
     set_MY_SERIAL [] typed_q /\
   existsb is_sleep (calls (processSerial (reading soc_15 true) typed_q)) = false /\
   existsb is_publish (calls (processSerial (reading soc_15 true) typed_q)) = false).
Proof.
  assert (Hne : "q"%char <> "b"%char) by discriminate.
  split; [reflexivity | split; [exact Hne|]].
  exact (only_b_reaches_the_monitor (reading soc_15 true) typed_q "q" []
           eq_refl Hne).
Defined.

(** X11: the command [b] prints its notice and then is one qualification:
    same outcome, same calls after the notice, same counter.  The input
    typed after it is discarded when the qualification returns and is still
    pending when it sleeps. *)
Theorem command_b_is_a_qualification (p : Platform) (w : World)
    (rest : list ascii) :
  MY_SERIAL w = "b"%char :: rest ->
  let r := processSerial p w in
  let q := qualify_battery_and_hibernate p w in
  outcome r = outcome q /\
  calls r = running_notice :: calls q /\
  low_batt_sleep_attempts (world r) = low_batt_sleep_attempts (world q) /\
  MY_SERIAL (world r) = (if is_low p then rest else []).
Proof.
  intros Hrx r q. subst r q.
  rewrite (processSerial_first p w "b" rest Hrx). cbn [Ascii.eqb Bool.eqb].
  unfold is_low. destruct (SFltb (soc_reading p) LOW_BATT_CAPACITY) eqn:Hlow.
  - rewrite (qualify_low p w Hlow). repeat split.
  - rewrite (qualify_not_low p w Hlow). repeat split.
Qed.

(** X11 with a low battery after five sleeps. *)
Lemma command_b_is_a_qualification_witness :
  MY_SERIAL typed_b_x = "b"%char :: ["x"%char] /\
  (outcome (processSerial (reading soc_15 false) typed_b_x) =
     outcome (qualify_battery_and_hibernate (reading soc_15 false) typed_b_x) /\
   calls (processSerial (reading soc_15 false) typed_b_x) =
     running_notice ::
       calls (qualify_battery_and_hibernate (reading soc_15 false) typed_b_x) /\
   low_batt_sleep_attempts (world (processSerial (reading soc_15 false) typed_b_x)) =
     low_batt_sleep_attempts
       (world (qualify_battery_and_hibernate (reading soc_15 false) typed_b_x)) /\
   MY_SERIAL (world (processSerial (reading soc_15 false) typed_b_x)) =
     (if is_low (reading soc_15 false) then ["x"%char] else [])).
Proof.
  split; [reflexivity|].
  exact (command_b_is_a_qualification (reading soc_15 false) typed_b_x
           ["x"%char] eq_refl).
Defined.

(** ** The telemetry timer *)

(** X12: the callback of the [publish_data] timer publishes one [UPDATE]
    event with the battery statistics whether or not the cloud is
    connected, echoes it on the serial port, and neither changes a variable
    nor asks for a sleep. *)
Theorem publish_pmic_stats_always_publishes (p : Platform) (w : World) :
  let r := timer_callback publish_data p w in
  outcome r = Returned tt /\
  world r = w /\
  calls r =
    [Publish [Lit "UPDATE"] (stats_text p);
     Println ([Lit "UPDATE"; Lit " "] ++ stats_text p);
     Delay 100] /\
  calls r = calls (timer_callback publish_data (set_cloud_connected false p) w).
Proof. repeat split. Qed.

(** ** The fuel gauge's settling time *)


(** ** The status LED *)

Lemma toggleD7_cases (b : Board) (w : World) :
  toggleD7 b w =
    if 100 <? to_uint32 (millis_reading b 0 - lastBlink w)
    then (Returned tt, set_lastBlink (millis_reading b 1) w,
          [DigitalWrite D7 (logical_not (D7_reading b))])
    else (Returned tt, w, []).
Proof.
  unfold toggleD7; cbn. unfold Sketch_bind, millis, read_lastBlink.
  destruct (100 <? to_uint32 (millis_reading b 0 - lastBlink w)); reflexivity.
Qed.

(** X13: the blink test is safe across the roll-over of [millis()].  When
    [lastBlink] and the clock are the low 32 bits of two instants less than
    [2^32] ms apart, the LED is toggled exactly when more than 100 ms have
    passed between them; then [lastBlink] takes the clock's next reading and
    the level written is the opposite of the level read; otherwise nothing
    changes. *)
Theorem toggleD7_survives_rollover (b : Board) (w : World) (t_last t_now : Z) :
  0 <= t_last <= t_now ->
  t_now - t_last < 2 ^ 32 ->
  lastBlink w = to_uint32 t_last ->
  millis_reading b 0 = to_uint32 t_now ->
  toggleD7 b w =
    if 100 <? t_now - t_last
    then (Returned tt, set_lastBlink (millis_reading b 1) w,
          [DigitalWrite D7 (if D7_reading b =? 0 then 1 else 0)])
    else (Returned tt, w, []).
Proof.
  intros Hle Hlt Hlast Hnow.
  rewrite toggleD7_cases, Hlast, Hnow.
  assert (E : to_uint32 (to_uint32 t_now - to_uint32 t_last) = t_now - t_last).
  { unfold to_uint32. rewrite <- Zminus_mod.
    apply Z.mod_small. unfold modulus. lia. }
  rewrite E. reflexivity.
Qed.

(** X13 with the last blink 50 ms before the roll-over and the clock 60 ms
    after it. *)
Lemma toggleD7_survives_rollover_witness :
  0 <= 4294967246 <= 4294967356 /\
  4294967356 - 4294967246 < 2 ^ 32 /\
  lastBlink blinked_before_rollover = to_uint32 4294967246 /\
  millis_reading (board (reading soc_25 true) 60 61 1) 0 = to_uint32 4294967356 /\
  toggleD7 (board (reading soc_25 true) 60 61 1) blinked_before_rollover =
    (Returned tt, set_lastBlink 61 blinked_before_rollover, [DigitalWrite D7 0]).
Proof.
  assert (H1 : 0 <= 4294967246 <= 4294967356) by lia.
  assert (H2 : 4294967356 - 4294967246 < 2 ^ 32) by lia.
  split; [exact H1 | split; [exact H2 | split; [reflexivity | split; [reflexivity|]]]].
  exact (toggleD7_survives_rollover (board (reading soc_25 true) 60 61 1)
           blinked_before_rollover 4294967246 4294967356 H1 H2 eq_refl eq_refl).
Defined.

(** ** Start-up *)

Lemma setup_runs_one_qualification (online : Platform) (b : Board) (w : World) :
  setup online b w =
    match qualify_battery_and_hibernate (peripherals b) w with
    | (Returned _, w1, cs) =>
        (Returned tt, w1,
         [PinModeCall D7 OUTPUT; SerialBegin 9600;
          ParticleFunction "soc" get_soc; ParticleFunction "battv" get_battv;
          Monitor QuickStart; Monitor (Delay 200)]
           ++ map Monitor cs
           ++ [ParticleConnect; WaitForConnected 120000;
               Monitor (Publish [Lit "WAKE"] (stats_text online));
               Monitor (Println ([Lit "WAKE"; Lit " "] ++ stats_text online));
               Monitor (Delay 100);
               TimerStart batt_monitor; TimerStart publish_data]
           ++ map Monitor (calls (showHelp online w1)))
    | (Suspended, w1, cs) =>
        (Suspended, w1,
         [PinModeCall D7 OUTPUT; SerialBegin 9600;
          ParticleFunction "soc" get_soc; ParticleFunction "battv" get_battv;
          Monitor QuickStart; Monitor (Delay 200)]
           ++ map Monitor cs)
    end.
Proof.
  destruct (SFltb (soc_reading (peripherals b)) LOW_BATT_CAPACITY) eqn:Hlow.
  - rewrite (qualify_low _ w Hlow).
    unfold setup; cbn. unfold Sketch_bind, monitor; cbn.
    unfold Run_bind, FuelGauge_getSoC; cbn. rewrite Hlow; cbn.
    destruct (cloud_connected (peripherals b)); reflexivity.
  - rewrite (qualify_not_low _ w Hlow).
    unfold setup; cbn. unfold Sketch_bind, monitor; cbn.
    unfold Run_bind, FuelGauge_getSoC; cbn. rewrite Hlow; cbn.
    reflexivity.
Qed.

(** X14: when the battery is low at start-up, [setup] puts the device back
    to sleep before the modem is switched on: it never reaches
    [Particle.connect], starts no timer and publishes no [WAKE]; the counter
    is incremented and the sleep asked for is that of the new count. *)
Theorem setup_low_battery_sleeps_before_connect
    (online : Platform) (b : Board) (w : World) :
  is_low (peripherals b) = true ->
  let r := setup online b w in
  let n := to_uint32 (low_batt_sleep_attempts w + 1) in
  sketch_outcome r = Suspended /\
  low_batt_sleep_attempts (sketch_world r) = n /\
  existsb is_connect (sketch_calls r) = false /\
  existsb is_timer_start (sketch_calls r) = false /\
  filter is_board_sleep (sketch_calls r) =
    [Monitor (Sleep SLEEP_MODE_SOFTPOWEROFF (sleep_time n))] /\
  filter is_board_publish (sketch_calls r) =
    if cloud_connected (peripherals b)
    then [Monitor (Publish [Lit "SLEEP "; OfUInt (sleep_time n)]
                     (stats_text (peripherals b)))]
    else [].
Proof.
  intros Hlow r n. subst r n. unfold is_low in Hlow.
  rewrite setup_runs_one_qualification, (qualify_low _ w Hlow).
  destruct (cloud_connected (peripherals b)); repeat split.
Qed.

(** X14 on a first start with the battery at 15.0. *)
Lemma setup_low_battery_sleeps_before_connect_witness :
  is_low (peripherals (board (reading soc_15 false) 0 0 0)) = true /\
  (sketch_outcome
     (setup (reading soc_25 true) (board (reading soc_15 false) 0 0 0) power_on) =
     Suspended /\
   low_batt_sleep_attempts
     (sketch_world
        (setup (reading soc_25 true) (board (reading soc_15 false) 0 0 0) power_on)) =
     1 /\
   existsb is_connect
     (sketch_calls
        (setup (reading soc_25 true) (board (reading soc_15 false) 0 0 0) power_on)) =
     false).
Proof.
  split; [reflexivity|].
  pose proof (setup_low_battery_sleeps_before_connect (reading soc_25 true)
                (board (reading soc_15 false) 0 0 0) power_on eq_refl) as H.
  exact (conj (proj1 H) (conj (proj1 (proj2 H)) (proj1 (proj2 (proj2 H))))).
Defined.

(** X15: when the battery is not low at start-up, [setup] returns with the
    counter cleared after it has, in this order, let the fuel gauge settle,
    connected, waited up to 120 s, published one [WAKE] event with the
    readings taken after the wait, whether or not the connection came up,
    started the two timers and printed the help; it asks for no sleep. *)
Theorem setup_healthy_battery_goes_online
    (online : Platform) (b : Board) (w : World) :
  is_low (peripherals b) = false ->
  let r := setup online b w in
  sketch_outcome r = Returned tt /\
  sketch_world r = set_low_batt_sleep_attempts 0 w /\
  sketch_calls r =
    [PinModeCall D7 OUTPUT; SerialBegin 9600;
     ParticleFunction "soc" get_soc; ParticleFunction "battv" get_battv;
     Monitor QuickStart; Monitor (Delay 200);
     ParticleConnect; WaitForConnected 120000;
     Monitor (Publish [Lit "WAKE"] (stats_text online));
     Monitor (Println ([Lit "WAKE"; Lit " "] ++ stats_text online));
     Monitor (Delay 100);
     TimerStart batt_monitor; TimerStart publish_data]
      ++ map Monitor (calls (showHelp online w)) /\
  existsb is_board_sleep (sketch_calls r) = false.
Proof.
  intros Hlow r. subst r. unfold is_low in Hlow.
  rewrite setup_runs_one_qualification, (qualify_not_low _ w Hlow).
  repeat split.
Qed.

(** X15 on a start with the battery at 25.0 after five sleeps, the
    connection not coming up. *)
Lemma setup_healthy_battery_goes_online_witness :
  is_low (peripherals (board (reading soc_25 false) 0 0 0)) = false /\
  (sketch_outcome
     (setup (reading soc_25 false) (board (reading soc_25 false) 0 0 0)
        after_five_sleeps) = Returned tt /\
   sketch_world
     (setup (reading soc_25 false) (board (reading soc_25 false) 0 0 0)
        after_five_sleeps) = set_low_batt_sleep_attempts 0 after_five_sleeps).
Proof.
  split; [reflexivity|].
  pose proof (setup_healthy_battery_goes_online (reading soc_25 false)
                (board (reading soc_25 false) 0 0 0) after_five_sleeps eq_refl) as H.
  exact (conj (proj1 H) (proj1 (proj2 H))).
Defined.



(** ** The main loop *)

Lemma loop_unfold (b : Board) (w : World) :
  loop b w =
    match toggleD7 b w with
    | (Returned _, w1, c1) =>
        match processSerial (peripherals b) w1 with
        | (o, w2, c2) => (o, w2, c1 ++ map Monitor c2)
        end
    | (Suspended, w1, c1) => (Suspended, w1, c1)
    end.
Proof.
  unfold loop. cbn [bind Monad_Sketch]. unfold Sketch_bind, monitor.
  destruct (toggleD7 b w) as [[[a|] w1] c1]; [|reflexivity].
  destruct (processSerial (peripherals b) w1) as [[o w2] c2]. reflexivity.
Qed.

(** X18: a pass of [loop] leaves the retained variables alone and neither
    sleeps nor publishes unless the first pending character is [b]: without
    that command the main loop only blinks the LED and answers the
    console. *)
Theorem loop_without_b_keeps_the_monitor_idle (b : Board) (w : World) :
  (forall rest : list ascii, MY_SERIAL w <> "b"%char :: rest) ->
  let r := loop b w in
  sketch_outcome r = Returned tt /\
  low_batt_sleep_attempts (sketch_world r) = low_batt_sleep_attempts w /\
  last_battery_capacity (sketch_world r) = last_battery_capacity w /\
  existsb is_board_sleep (sketch_calls r) = false /\
  existsb is_board_publish (sketch_calls r) = false.
Proof.
  intros Hb r. subst r. rewrite loop_unfold, toggleD7_cases.
  assert (Hcases : forall w1 c1,
    MY_SERIAL w1 = MY_SERIAL w ->
    low_batt_sleep_attempts w1 = low_batt_sleep_attempts w ->
    last_battery_capacity w1 = last_battery_capacity w ->
    existsb is_board_sleep c1 = false ->
    existsb is_board_publish c1 = false ->
    let r := match processSerial (peripherals b) w1 with
             | (o, w2, c2) => (o, w2, c1 ++ map Monitor c2)
             end in
    sketch_outcome r = Returned tt /\
    low_batt_sleep_attempts (sketch_world r) = low_batt_sleep_attempts w /\
    last_battery_capacity (sketch_world r) = last_battery_capacity w /\
    existsb is_board_sleep (sketch_calls r) = false /\
    existsb is_board_publish (sketch_calls r) = false).
  { intros w1 c1 Hrx Ha Hc Hs Hp.
    destruct (MY_SERIAL w1) as [|c rest] eqn:Hrx1.
    - rewrite (processSerial_empty _ w1 Hrx1). cbn.
      rewrite app_nil_r. repeat split; assumption.
    - assert (Hc' : (c =? "b")%char = false).
      { apply Ascii.eqb_neq. intros ->. apply (Hb rest). now symmetry. }
      rewrite (processSerial_first _ w1 c rest Hrx1), Hc'.
      destruct (c =? "q")%char;
        [|destruct (c =? "Q")%char;
          [|destruct (c =? "v")%char; [|destruct (c =? "h")%char]]];
        cbn; rewrite !existsb_app, Hs, Hp; repeat split; assumption. }
  destruct (100 <? to_uint32 (millis_reading b 0 - lastBlink w)).
  - apply Hcases; reflexivity.
  - apply Hcases; reflexivity.
Qed.

(** X18 with [Q] pending and the LED due. *)
Lemma loop_without_b_keeps_the_monitor_idle_witness :
  (forall rest : list ascii, MY_SERIAL typed_Q_b_x <> "b"%char :: rest) /\
  low_batt_sleep_attempts
    (sketch_world (loop (board (reading soc_15 true) 160 161 0) typed_Q_b_x)) =
    low_batt_sleep_attempts typed_Q_b_x.
Proof.
  assert (H : forall rest : list ascii, MY_SERIAL typed_Q_b_x <> "b"%char :: rest)
    by (intros rest; discriminate).
  split; [exact H|].
  exact (proj1 (proj2
    (loop_without_b_keeps_the_monitor_idle
       (board (reading soc_15 true) 160 161 0) typed_Q_b_x H))).
Defined.

(** ** The unused retained variable *)

(** X19: no routine of the sketch ever writes [last_battery_capacity]: the
    qualification, the telemetry callback, the console handler, the LED
    blink, [setup] and [loop] all leave it as they found it. *)
Theorem last_battery_capacity_is_never_written
    (p online : Platform) (b : Board) (w : World) :
  last_battery_capacity (world (qualify_battery_and_hibernate p w)) =
    last_battery_capacity w /\
  last_battery_capacity (world (publish_pmic_stats p w)) =
    last_battery_capacity w /\
  last_battery_capacity (world (processSerial p w)) =
    last_battery_capacity w /\
  last_battery_capacity (sketch_world (toggleD7 b w)) =
    last_battery_capacity w /\
  last_battery_capacity (sketch_world (setup online b w)) =
    last_battery_capacity w /\
  last_battery_capacity (sketch_world (loop b w)) =
    last_battery_capacity w.
Proof.
  assert (Hq : forall q v,
    last_battery_capacity (world (qualify_battery_and_hibernate q v)) =
      last_battery_capacity v).
  { intros q v. rewrite qualify_world. reflexivity. }
  assert (Hs : forall q v,
    last_battery_capacity (world (processSerial q v)) = last_battery_capacity v).
  { intros q v. destruct (MY_SERIAL v) as [|c rest] eqn:Hrx.
    - rewrite (processSerial_empty q v Hrx). reflexivity.
    - rewrite (processSerial_first q v c rest Hrx).
      destruct (c =? "q")%char; [reflexivity|].
      destruct (c =? "Q")%char; [reflexivity|].
      destruct (c =? "b")%char; [destruct (is_low q); reflexivity|].
      destruct (c =? "v")%char; [reflexivity|].
      destruct (c =? "h")%char; reflexivity. }
  assert (Ht : forall v,
    last_battery_capacity (sketch_world (toggleD7 b v)) = last_battery_capacity v).
  { intros v. rewrite toggleD7_cases.
    destruct (100 <? to_uint32 (millis_reading b 0 - lastBlink v)); reflexivity. }
  split; [apply Hq|]. split; [reflexivity|]. split; [apply Hs|].
  split; [apply Ht|]. split.
  - rewrite setup_runs_one_qualification.
    pose proof (Hq (peripherals b) w) as H.
    destruct (qualify_battery_and_hibernate (peripherals b) w) as [[[a|] w1] cs];
      exact H.
  - rewrite loop_unfold.
    pose proof (Ht w) as H1.
    destruct (toggleD7 b w) as [[[a|] w1] c1]; [|exact H1].
    pose proof (Hs (peripherals b) w1) as H2.
    destruct (processSerial (peripherals b) w1) as [[o w2] c2].
    unfold sketch_world, world in *; simpl in *. congruence.
Qed.
